(** * Procurement methodology recommender: keyword classifier and rule table

    A shallow embedding of the keyword classifier ([extract_keywords]), of the
    three copies of the methodology recommender ([get_procurement_advice] in
    [methodology-chosen.py] and [intergration.py],
    [get_procurement_advice_with_flow] in [procurement_analysis_platform.py]),
    of the text extractors and of [analyze_file], with the properties the
    specification states about them. *)

From Stdlib Require Import List NArith PeanoNat Bool String Ascii Lia.
Import ListNotations.

Local Open Scope N_scope.

(** ** Python strings

    A Python 3 [str] is a sequence of Unicode code points.  It is modelled as
    the list of its code points; the literals of the source are written as
    UTF-8 text and decoded by [u]. *)

Definition str : Type := list N.

Module Utf8.

Fixpoint bytes_of (s : string) : list N :=
  match s with
  | EmptyString => []
  | String c r => N_of_ascii c :: bytes_of r
  end.

(** Decoder for well-formed UTF-8 (one to four bytes per code point); a
    truncated sequence ends the decoding. *)
Fixpoint decode (bs : list N) : str :=
  match bs with
  | [] => []
  | b0 :: r0 =>
    if b0 <? 128 then b0 :: decode r0
    else if b0 <? 224 then
      match r0 with
      | b1 :: r1 => ((b0 - 192) * 64 + (b1 - 128)) :: decode r1
      | _ => []
      end
    else if b0 <? 240 then
      match r0 with
      | b1 :: b2 :: r2 =>
        ((b0 - 224) * 4096 + (b1 - 128) * 64 + (b2 - 128)) :: decode r2
      | _ => []
      end
    else
      match r0 with
      | b1 :: b2 :: b3 :: r3 =>
        ((b0 - 240) * 262144 + (b1 - 128) * 4096 + (b2 - 128) * 64
         + (b3 - 128)) :: decode r3
      | _ => []
      end
  end.

End Utf8.

(** [u "..."] is the [str] whose UTF-8 encoding is the given literal. *)
Definition u (s : string) : str := Utf8.decode (Utf8.bytes_of s).

Arguments u : simpl never.

(** ** String operations of the Python runtime *)

(** [s.startswith(t)] *)
Fixpoint startswith (s t : str) {struct t} : bool :=
  match t, s with
  | [], _ => true
  | _ :: _, [] => false
  | c :: t', d :: s' => (c =? d) && startswith s' t'
  end.

(** [t in s]: [t] occurs in [s] as a contiguous run of code points. *)
Fixpoint in_str (t s : str) : bool :=
  startswith s t ||
  match s with
  | [] => false
  | _ :: s' => in_str t s'
  end.

(** [any(word in s for word in words)] *)
Definition any_in (words : list str) (s : str) : bool :=
  existsb (fun word => in_str word s) words.

(** [s.endswith(t)] *)
Definition endswith (s t : str) : bool := startswith (rev s) (rev t).

(** [s.endswith((t1, t2, ...))] *)
Definition endswith_any (s : str) (ts : list str) : bool :=
  existsb (endswith s) ts.

(** [bool(s)]: a string is truthy when it is not empty. *)
Definition truthy (s : str) : bool :=
  match s with
  | [] => false
  | _ :: _ => true
  end.

(** [bool(l)] for a list. *)
Definition truthy_list {A : Type} (l : list A) : bool :=
  match l with
  | [] => false
  | _ :: _ => true
  end.

(** The code points for which [str.isspace] holds, the ones [str.strip]
    removes when called without argument. *)
Definition isspace (c : N) : bool :=
  ((9 <=? c) && (c <=? 13)) || ((28 <=? c) && (c <=? 32))
  || (c =? 133) || (c =? 160) || (c =? 5760)
  || ((8192 <=? c) && (c <=? 8202))
  || (c =? 8232) || (c =? 8233) || (c =? 8239) || (c =? 8287)
  || (c =? 12288).

Fixpoint lstrip (s : str) : str :=
  match s with
  | [] => []
  | c :: s' => if isspace c then lstrip s' else s
  end.

Definition rstrip (s : str) : str := rev (lstrip (rev s)).

(** [s.strip()] *)
Definition strip (s : str) : str := rstrip (lstrip s).

(** [sep.join(parts)] *)
Fixpoint join (sep : str) (parts : list str) : str :=
  match parts with
  | [] => []
  | [p] => p
  | p :: rest => p ++ sep ++ join sep rest
  end.

(** [os.path.basename(p)] on a POSIX path: what follows the last slash. *)
Fixpoint basename_from (acc p : str) : str :=
  match p with
  | [] => acc
  | c :: p' => if c =? 47 then basename_from [] p' else basename_from (acc ++ [c]) p'
  end.

Definition basename (p : str) : str := basename_from [] p.

(** [str.lower] rewrites every code point by the full lower-case mapping of
    the interpreter's Unicode database; the result for one code point is a
    short sequence and may depend on the code points around it (the Greek
    capital sigma).  The database is not part of the repository: it is a
    parameter of the development, and every general theorem holds for every
    table. *)
Class UnicodeData : Type :=
  { to_lower_full : str -> N -> str -> str }.

(** The table restricted to Basic Latin: [A]-[Z] go to [a]-[z] and every
    other code point is kept.  It agrees with Python on every text whose
    cased letters are ASCII, in particular on ASCII text and on Chinese text;
    the closed examples are run with it. *)
Definition basic_latin : UnicodeData :=
  {| to_lower_full := fun _ c _ =>
       [if (65 <=? c) && (c <=? 90) then c + 32 else c] |}.

Section Lower.
Context {U : UnicodeData}.

Fixpoint lower_from (before s : str) : str :=
  match s with
  | [] => []
  | c :: rest => to_lower_full before c rest ++ lower_from (before ++ [c]) rest
  end.

(** [s.lower()] *)
Definition lower (s : str) : str := lower_from [] s.

End Lower.

(** ** The minimal rule set: [methodology-chosen.py] *)

Module MethodologyChosen.

(** The five (methodology, reason) pairs the function can return. *)

Definition kraljic : str * str :=
  (u "卡拉杰克采购组合模型 (Kraljic Portfolio Matrix)",
   u "卡拉杰克采购组合模型通过将采购物品按利润影响和供应风险两个维度进行分类，将采购项目分为战略型、杠杆型、瓶颈型和常规型四类，针对不同类型制定差异化采购策略。这一方法论特别适合帮助企业优化采购资源分配，建立高效的供应商关系管理体系，降低整体采购成本和风险。").

Definition vmi : str * str :=
  (u "VMI联合价值创造模型 (Vendor Managed Inventory)",
   u "VMI联合价值创造模型通过供应商参与买方的库存管理决策，实现供需双方的信息共享与协同合作。该方法论能够减少库存积压和缺货风险，降低整体供应链成本，提高响应速度。尤其适合需要与核心供应商建立长期战略合作关系的企业，通过信息共享和协同计划创造双赢局面。").

Definition mrp : str * str :=
  (u "MRP物料需求计划方法论 (Material Requirements Planning)",
   u "MRP物料需求计划方法论基于生产计划和物料清单，精确计算生产所需的原材料和零部件数量及时间。该方法通过计算机系统实现物料需求的精准预测和计划，确保生产所需物料按时按量供应，同时最小化库存成本。特别适合制造型企业的生产物料采购管理，提高生产效率和物料周转率。").

Definition mro : str * str :=
  (u "MRO分类采购管理方法论 (Maintenance, Repair, and Operations)",
   u "MRO分类采购管理方法论专注于非生产性物料的采购与管理，通过对维护、维修和运营所需物品进行分类，制定针对性的采购策略和库存管理方案。该方法能够提高间接物料的采购效率，降低库存成本，确保企业运营的连续性，特别适合需要大量维护和运营物料的行业。").

Definition fallback : str * str :=
  (u "采购方法论综合评估法",
   u "基于您提供的信息，我们建议先对采购需求进行全面评估，包括：
1. 分析采购物品的特性和重要性
2. 评估与供应商的合作模式需求
3. 明确库存管理目标
根据评估结果，可选择卡拉杰克采购组合模型进行分类管理，VMI模型优化供应商协作，
MRP方法进行生产物料计划，或MRO分类管理间接物料，也可组合使用多种方法。").

Section Advice.
Context {U : UnicodeData}.

Definition get_procurement_advice (industry objective : str) : str * str :=
  let industry_lower := lower industry in
  let objective_lower := lower objective in
  let is_manufacturing :=
    any_in [u "制造"; u "生产"; u "manufacture"; u "production"] industry_lower in
  let is_retail :=
    any_in [u "零售"; u "零售"; u "retail"; u "distribution"] industry_lower in
  let is_construction :=
    any_in [u "建筑"; u "construction"; u "building"] industry_lower in
  let is_service := any_in [u "服务"; u "service"] industry_lower in
  let wants_portfolio :=
    any_in [u "分类"; u "组合"; u "portfolio"; u "categorize"] objective_lower in
  let wants_collaboration :=
    any_in [u "合作"; u "联合"; u "协作"; u "collaboration"; u "joint"]
           objective_lower in
  let wants_inventory :=
    any_in [u "库存"; u "库存管理"; u "inventory"; u "stock"] objective_lower in
  let wants_material :=
    any_in [u "物料"; u "材料"; u "material"] objective_lower in
  let wants_maintenance :=
    any_in [u "维护"; u "维修"; u "maintenance"; u "repair"] objective_lower in
  if wants_portfolio || (wants_material && wants_inventory) then kraljic
  else if wants_collaboration
          || any_in [u "供应商管理"; u "联合库存"; u "vmi"] objective_lower
  then vmi
  else if wants_material && wants_inventory && is_manufacturing then mrp
  else if wants_maintenance
          || any_in [u "间接物料"; u "维护用品"; u "mro"] objective_lower
  then mro
  else fallback.

End Advice.

End MethodologyChosen.

(** ** The extended rule set without diagrams: [intergration.py] *)

Module Intergration.

(** The six (title, rationale) pairs the function can return. *)

Definition kraljic : str * str :=
  (u "卡拉杰克采购组合模型",
   u "通过「战略型、杠杆型、瓶颈型、常规型」分类，优化采购资源与供应商关系，降本提效。").

Definition vmi : str * str :=
  (u "VMI联合价值创造模型",
   u "供应商深度参与库存管理，减少积压/缺货，适合长期战略合作场景。").

Definition mrp : str * str :=
  (u "MRP物料需求计划方法论",
   u "基于生产计划精准计算物料需求，减少库存浪费，适配制造型企业排产。").

Definition mro : str * str :=
  (u "MRO分类采购管理方法论",
   u "聚焦非生产物料（维护/维修/运营），分类管控间接采购成本，保障产线稳定。").

Definition tco : str * str :=
  (u "TCO总成本优化方法论",
   u "从采购、使用到处置的全生命周期成本分析，识别隐性节约空间，系统性降低总拥有成本。").

Definition fallback : str * str :=
  (u "采购策略综合评估法",
   u "建议先梳理采购物品属性、供应商关系、成本结构，再适配具体方法论。").

Section Advice.
Context {U : UnicodeData}.

Definition get_procurement_advice (industry objective : str) : str * str :=
  let industry_lower := strip (lower industry) in
  let objective_lower := strip (lower objective) in
  let is_manufacturing :=
    any_in [u "制造"; u "生产"; u "manufacture"] industry_lower in
  let is_retail :=
    any_in [u "零售"; u "retail"; u "distribution"] industry_lower in
  let is_construction :=
    any_in [u "建筑"; u "construction"; u "building"] industry_lower in
  let wants_portfolio :=
    any_in [u "分类"; u "组合"; u "portfolio"; u "categorize"] objective_lower in
  let wants_collaboration :=
    any_in [u "合作"; u "联合"; u "协作"; u "collaboration"] objective_lower in
  let wants_material_plan :=
    any_in [u "物料计划"; u "mrp"; u "生产排期"] objective_lower in
  let wants_maintenance :=
    any_in [u "维护"; u "维修"; u "mro"; u "间接物料"] objective_lower in
  let wants_cost_reduction :=
    any_in [u "成本"; u "节约"; u "降低"; u "control"; u "reduce"]
           objective_lower in
  if wants_portfolio then kraljic
  else if wants_collaboration then vmi
  else if wants_material_plan && is_manufacturing then mrp
  else if wants_maintenance then mro
  else if wants_cost_reduction then tco
  else fallback.

End Advice.

End Intergration.

(** ** The extended rule set with diagrams:
       [procurement_analysis_platform.py] *)

Module Platform.

(** The six (title, description, Mermaid flow chart) triples the function
    can return. *)

Definition kraljic : str * str * str :=
  (u "卡拉杰克采购组合模型",
   u "通过「战略型、杠杆型、瓶颈型、常规型」分类，优化采购资源与供应商关系，降本提效。",
   u "
        ```mermaid
        graph TD
            A[确定采购物品清单] --> B[分析物品重要性<br/>(对业务影响)]
            A --> C[分析供应风险<br/>(稀缺性/替代难度)]
            B --> D{重要性高?}
            C --> E{供应风险高?}
            D -->|是| F[战略型物品<br/>(例：核心零部件)]
            D -->|否| G[杠杆型物品<br/>(例：标准化原材料)]
            E -->|是| H[瓶颈型物品<br/>(例：独家配件)]
            E -->|否| I[常规型物品<br/>(例：办公用品)]
            F --> J[建立长期战略合作]
            G --> K[集中采购+招标压价]
            H --> L[多源寻源+库存缓冲]
            I --> M[简化流程+自动化采购]
        ```
        ").

Definition vmi : str * str * str :=
  (u "VMI联合价值创造模型",
   u "供应商深度参与库存管理，减少积压/缺货，适合长期战略合作场景。",
   u "
        ```mermaid
        graph TD
            A[供需双方签订VMI协议] --> B[共享销售/库存数据<br/>(实时同步)]
            B --> C[供应商预测需求<br/>(结合历史数据)]
            C --> D{库存低于安全线?}
            D -->|是| E[自动补货至目标库存]
            D -->|否| F[维持现有库存]
            E --> G[双方定期复盘<br/>(调整预测模型)]
            G --> B[循环优化]
        ```
        ").

Definition mrp : str * str * str :=
  (u "MRP物料需求计划方法论",
   u "基于生产计划精准计算物料需求，减少库存浪费，适配制造型企业排产。",
   u "
        ```mermaid
        graph TD
            A[制定主生产计划<br/>(MPS)] --> B[分解物料清单<br/>(BOM层级展开)]
            B --> C[统计现有库存<br/>(含在途/在制)]
            C --> D[计算净需求<br/>(毛需求-库存-在途)]
            D --> E{净需求>0?}
            E -->|是| F[生成采购订单<br/>(按提前期)]
            E -->|否| G[无需采购]
            F --> H[跟踪订单交付<br/>(与生产计划匹配)]
            H --> I[生产执行与反馈]
        ```
        ").

Definition mro : str * str * str :=
  (u "MRO分类采购管理方法论",
   u "聚焦非生产物料（维护/维修/运营），分类管控间接采购成本，保障产线稳定。",
   u "
        ```mermaid
        graph TD
            A[梳理MRO物料清单] --> B[分类：<br/>1. 高频低价值<br/>2. 低频高价值<br/>3. 应急必需]
            B --> C[高频低价值：<br/>长期协议+自动补货]
            B --> D[低频高价值：<br/>战略寻源+最小库存]
            B --> E[应急必需：<br/>多供应商+安全库存]
            C --> F[定期消耗分析<br/>(优化补货参数)]
            D --> G[供应商响应速度考核]
            E --> H[模拟应急场景<br/>(测试供应能力)]
        ```
        ").

Definition tco : str * str * str :=
  (u "TCO总成本优化方法论",
   u "从采购、使用到处置的全生命周期成本分析，识别隐性节约空间，系统性降低总拥有成本。",
   u "
        ```mermaid
        graph TD
            A[确定分析对象<br/>(单一物品/品类)] --> B[计算采购成本<br/>(价格+运输+税费)]
            B --> C[计算使用成本<br/>(能耗+维护+人工)]
            C --> D[计算处置成本<br/>(报废+环保+替代)]
            D --> E[汇总TCO=B+C+D]
            E --> F[识别成本占比最高项<br/>(例如：维护成本过高)]
            F --> G[针对性优化<br/>(例：换高效型号)]
            G --> H[验证优化效果<br/>(TCO降低比例)]
        ```
        ").

Definition fallback : str * str * str :=
  (u "采购策略综合评估法",
   u "建议先梳理采购物品属性、供应商关系、成本结构，再适配具体方法论。",
   u "
        ```mermaid
        graph TD
            A[明确采购目标<br/>(降本/保供/创新)] --> B[分析物品特性<br/>(价值/风险/复杂度)]
            B --> C[评估现有供应商<br/>(能力/合作历史)]
            C --> D[梳理内外部约束<br/>(预算/时间/政策)]
            D --> E[匹配候选方法论<br/>(对比优缺点)]
            E --> F[小范围试点验证]
            F --> G[全面推广+持续迭代]
        ```
        ").

Section Advice.
Context {U : UnicodeData}.

Definition get_procurement_advice_with_flow (industry objective : str)
  : str * str * str :=
  let industry_lower := strip (lower industry) in
  let objective_lower := strip (lower objective) in
  let is_manufacturing :=
    any_in [u "制造"; u "生产"; u "manufacture"] industry_lower in
  let wants_portfolio :=
    any_in [u "分类"; u "组合"; u "portfolio"] objective_lower in
  let wants_collaboration :=
    any_in [u "合作"; u "联合"; u "协作"; u "collaboration"] objective_lower in
  let wants_material_plan :=
    any_in [u "物料"; u "计划"; u "mrp"; u "生产排期"] objective_lower in
  let wants_maintenance :=
    any_in [u "维护"; u "维修"; u "mro"; u "间接物料"] objective_lower in
  let wants_cost_reduction :=
    any_in [u "成本"; u "节约"; u "降低"; u "control"; u "reduce"]
           objective_lower in
  if wants_portfolio then kraljic
  else if wants_collaboration then vmi
  else if wants_material_plan && is_manufacturing then mrp
  else if wants_maintenance then mro
  else if wants_cost_reduction then tco
  else fallback.

End Advice.

End Platform.

(** ** Effects: exceptions, the random generator, the clock and a trace

    [analyze_file] and the functions it calls read files through external
    parsers that can raise, draw from the [random] module, read the clock and
    print to a standard output that can raise as well.  They are embedded in
    a state-and-exception monad over a [world]; the trace of the world
    records the calls the specification speaks about. *)

(** A raised instance of a subclass of [Exception], with the text [str(e)]
    gives for it. *)
Inductive exn : Type :=
| Exception (msg : str).

Definition exn_str (e : exn) : str :=
  match e with
  | Exception msg => msg
  end.

Inductive result (A : Type) : Type :=
| Ok (a : A)
| Raise (e : exn).

Arguments Ok {A} a.
Arguments Raise {A} e.

(** A table cell as pandas yields it: [None] is a missing value (the cells
    [pd.notna] rejects), [Some s] a value whose [str(...)] is [s]. *)
Definition cell : Type := option str.

Record DataFrame : Type :=
  { df_columns : list cell;
    df_rows : list (list cell) }.

Inductive event : Type :=
| EvExtractKeywords (text : str)
| EvScan (label : str)
| EvPrint (line : str)
| EvSleep
| EvProgress (i : nat).

(** The collaborators outside the repository: python-docx, pandas, [os.path],
    [random], [datetime], the float formatting of the file size and the
    standard output.  [stdout_write line] is what [sys.stdout] does with the
    line [print] sends it: it takes the line, or it raises (a
    [UnicodeEncodeError] when its encoding cannot represent the text, an
    [OSError] or [ValueError] when the stream is broken or closed). *)
Class Host : Type :=
  { rng : Type;
    randbelow : N -> rng -> N * rng;
    clock : Type;
    sleep : clock -> clock;
    strftime_now : clock -> str;
    getsize : str -> result N;
    format_mb : N -> str;
    Document : str -> result (list str);
    workbook : Type;
    ExcelFile : str -> result workbook;
    sheet_names : workbook -> list str;
    read_excel : workbook -> str -> result DataFrame;
    read_csv : str -> result DataFrame;
    stdout_write : str -> result unit }.

Section Monad.
Context {H : Host}.

Record world : Type :=
  { w_rng : rng;
    w_clock : clock;
    w_trace : list event }.

Definition M (A : Type) : Type := world -> result A * world.

Definition ret {A : Type} (a : A) : M A := fun w => (Ok a, w).

Definition bind {A B : Type} (m : M A) (k : A -> M B) : M B :=
  fun w =>
    match m w with
    | (Ok a, w') => k a w'
    | (Raise e, w') => (Raise e, w')
    end.

(** The result of a call into a collaborator. *)
Definition call {A : Type} (r : result A) : M A := fun w => (r, w).

(** [try: body except Exception as e: handler(e)] *)
Definition try_except {A : Type} (body : M A) (handler : exn -> M A) : M A :=
  fun w =>
    match body w with
    | (Ok a, w') => (Ok a, w')
    | (Raise e, w') => handler e w'
    end.

Definition emit (e : event) : M unit :=
  fun w =>
    (Ok tt, {| w_rng := w_rng w; w_clock := w_clock w;
               w_trace := w_trace w ++ [e] |}).

(** [random._randbelow(n)] *)
Definition random_randbelow (n : N) : M N :=
  fun w =>
    let (k, g) := randbelow n (w_rng w) in
    (Ok k, {| w_rng := g; w_clock := w_clock w; w_trace := w_trace w |}).

(** [time.sleep(0.03)] *)
Definition time_sleep : M unit :=
  fun w =>
    (Ok tt, {| w_rng := w_rng w; w_clock := sleep (w_clock w);
               w_trace := w_trace w ++ [EvSleep] |}).

(** [datetime.now().strftime('%Y-%m-%d %H:%M:%S')] *)
Definition datetime_now : M str := fun w => (Ok (strftime_now (w_clock w)), w).

End Monad.

Declare Scope monad_scope.
Delimit Scope monad_scope with monad.
Notation "x <- m ;; k" := (bind m (fun x => k))
  (at level 61, m at next level, right associativity) : monad_scope.
Notation "' p <- m ;; k" := (bind m (fun x => let p := x in k))
  (at level 61, p pattern, m at next level, right associativity) : monad_scope.
Notation "m ;; k" := (bind m (fun _ => k))
  (at level 61, right associativity) : monad_scope.

(** [str(n)] for a non-negative integer. *)
Fixpoint uint_str (d : Decimal.uint) : str :=
  match d with
  | Decimal.Nil => []
  | Decimal.D0 d' => 48 :: uint_str d'
  | Decimal.D1 d' => 49 :: uint_str d'
  | Decimal.D2 d' => 50 :: uint_str d'
  | Decimal.D3 d' => 51 :: uint_str d'
  | Decimal.D4 d' => 52 :: uint_str d'
  | Decimal.D5 d' => 53 :: uint_str d'
  | Decimal.D6 d' => 54 :: uint_str d'
  | Decimal.D7 d' => 55 :: uint_str d'
  | Decimal.D8 d' => 56 :: uint_str d'
  | Decimal.D9 d' => 57 :: uint_str d'
  end.

Definition str_of_N (n : N) : str := uint_str (N.to_uint n).

(** [a == b] on strings. *)
Fixpoint str_eqb (a b : str) : bool :=
  match a, b with
  | [], [] => true
  | c :: a', d :: b' => (c =? d) && str_eqb a' b'
  | _, _ => false
  end.

(** ** The classifier and the file analysis: [intergration.py]

    [procurement_analysis_platform.py] holds the same [extract_keywords] and
    the same three extractors, character for character. *)

(** The two keyword dictionaries, in insertion order. *)
Definition industry_keywords : list (str * list str) :=
  [ (u "制造", [u "制造"; u "生产"; u "manufacture"; u "production"]);
    (u "零售", [u "零售"; u "retail"; u "distribution"; u "销售"]);
    (u "建筑", [u "建筑"; u "construction"; u "building"; u "工程"]);
    (u "医疗", [u "医疗"; u "hospital"; u "medical"]);
    (u "教育", [u "教育"; u "education"; u "school"]);
    (u "金融", [u "金融"; u "finance"; u "bank"]) ].

Definition objective_keywords : list (str * list str) :=
  [ (u "分类优化", [u "分类"; u "组合"; u "portfolio"; u "categorize"]);
    (u "供应商协作", [u "合作"; u "联合"; u "协作"; u "collaboration"; u "供应商"]);
    (u "物料计划", [u "物料"; u "计划"; u "mrp"; u "生产排期"]);
    (u "维护维修", [u "维护"; u "维修"; u "mro"; u "间接物料"]);
    (u "成本控制", [u "成本"; u "节约"; u "降低"; u "control"; u "reduce"]) ].

(** The closing sentences [analyze_file] chooses from at random. *)
Definition conclusions : list str :=
  [ u "文件数据完整度高，可用于采购策略建模。";
    u "数据存在零散性，建议先做标准化清洗。";
    u "内容与采购场景强相关，适合辅助方法论落地。";
    u "数据呈现出明确的采购模式，可直接应用推荐的方法论。" ].

Section Analysis.
Context {U : UnicodeData} {H : Host}.
Local Open Scope monad_scope.

(** The loop
    [for label, keywords in d.items(): if any(...): found = label; break]
    started from [found = ""]. *)
Fixpoint first_match (d : list (str * list str)) (text_lower : str) : M str :=
  match d with
  | [] => ret []
  | (label, keywords) :: rest =>
    emit (EvScan label) ;;
    if any_in keywords text_lower then ret label
    else first_match rest text_lower
  end.

Definition extract_keywords (text : str) : M (str * str) :=
  emit (EvExtractKeywords text) ;;
  if negb (truthy text) then ret ([], [])
  else
    let text_lower := lower text in
    industry <- first_match industry_keywords text_lower ;;
    objective <- first_match objective_keywords text_lower ;;
    ret (industry, objective).

(** [print(line)]: the line goes to the standard output, which can raise;
    a line that was written is recorded. *)
Definition print (line : str) : M unit :=
  call (stdout_write line) ;;
  emit (EvPrint line).

(** [[f(x) for x in xs]] where [f] can raise. *)
Fixpoint for_each {A B : Type} (xs : list A) (f : A -> M B) : M (list B) :=
  match xs with
  | [] => ret []
  | x :: rest =>
    y <- f x ;;
    ys <- for_each rest f ;;
    ret (y :: ys)
  end.

(** [[str(v) for v in cells if pd.notna(v)]] *)
Fixpoint notna_strs (cells : list cell) : list str :=
  match cells with
  | [] => []
  | Some s :: rest => s :: notna_strs rest
  | None :: rest => notna_strs rest
  end.

(** The sample rows: the loop over [df.head(5).iterrows()]. *)
Fixpoint sample_rows (rows : list (list cell)) : list str :=
  match rows with
  | [] => []
  | row :: rest =>
    let row_data := notna_strs row in
    if truthy_list row_data then join (u ", ") row_data :: sample_rows rest
    else sample_rows rest
  end.

Definition extract_text_from_docx (file_path : str) : M str :=
  try_except
    (paragraphs <- call (Document file_path) ;;
     ret (join (u "
") paragraphs))
    (fun e => print (u "提取Word内容出错: " ++ exn_str e) ;; ret []).

Definition extract_text_from_excel (file_path : str) : M str :=
  try_except
    (xls <- call (ExcelFile file_path) ;;
     full_text <- for_each (sheet_names xls) (fun sheet_name =>
       df <- call (read_excel xls sheet_name) ;;
       let sheet_text := u "工作表: " ++ sheet_name ++ u "
" in
       let columns := notna_strs (df_columns df) in
       let sheet_text :=
         if truthy_list columns
         then sheet_text ++ u "列名: " ++ join (u ", ") columns ++ u "
"
         else sheet_text in
       let sample_data := sample_rows (firstn 5 (df_rows df)) in
       let sheet_text :=
         if truthy_list sample_data
         then sheet_text ++ u "样本数据: " ++ join (u "; ") sample_data ++ u "
"
         else sheet_text in
       ret sheet_text) ;;
     ret (join (u "
") full_text))
    (fun e => print (u "提取Excel内容出错: " ++ exn_str e) ;; ret []).

Definition extract_text_from_csv (file_path : str) : M str :=
  try_except
    (df <- call (read_csv file_path) ;;
     let columns := notna_strs (df_columns df) in
     let full_text :=
       if truthy_list columns then [u "列名: " ++ join (u ", ") columns] else [] in
     let sample_data := sample_rows (firstn 5 (df_rows df)) in
     let full_text :=
       if truthy_list sample_data
       then full_text ++ [u "样本数据: " ++ join (u "; ") sample_data]
       else full_text in
     ret (join (u "
") full_text))
    (fun e => print (u "提取CSV内容出错: " ++ exn_str e) ;; ret []).

(** [random.randint(a, b)] *)
Definition random_randint (a b : N) : M N :=
  k <- random_randbelow (b - a + 1) ;;
  ret (a + k).

(** [random.choice(seq)] *)
Definition random_choice (seq : list str) : M str :=
  k <- random_randbelow (N.of_nat (List.length seq)) ;;
  match nth_error seq (N.to_nat k) with
  | Some x => ret x
  | None => call (Raise (Exception (u "list index out of range")))
  end.

(** The simulated progress bar:
    [for i in range(100): time.sleep(0.03); progress(i / 100, ...)],
    written as the countdown over the [n] rounds still to run. *)
Fixpoint progress_loop (n : nat) : M unit :=
  match n with
  | O => ret tt
  | S n' =>
    time_sleep ;;
    emit (EvProgress (100 - n)) ;;
    progress_loop n'
  end.

Definition analyze_file (file_path : option str)
  (industry_input objective_input : str) : M (str * str * str * str) :=
  match file_path with
  | Some path =>
    if truthy path then
      let file_name := basename path in
      file_size <- call (getsize path) ;;
      '(extracted_text, file_type) <-
        (if endswith (lower file_name) (u ".docx") then
           t <- extract_text_from_docx path ;; ret (t, u "Word文档")
         else if endswith_any (lower file_name) [u ".xlsx"; u ".xls"] then
           t <- extract_text_from_excel path ;; ret (t, u "Excel文档")
         else if endswith (lower file_name) (u ".csv") then
           t <- extract_text_from_csv path ;; ret (t, u "CSV文件")
         else ret (u "暂不支持该类型文件的内容提取", u "其他文件")) ;;
      '(extracted_industry, extracted_objective) <-
        (if truthy extracted_text && negb (str_eqb file_type (u "其他文件"))
         then extract_keywords extracted_text
         else ret ([], [])) ;;
      progress_loop 100 ;;
      now <- datetime_now ;;
      data_points <- random_randint 3 10 ;;
      trends <- random_randint 1 3 ;;
      conclusion <- random_choice conclusions ;;
      let analysis_result :=
        u "
    # 文件分析报告  
    ## 基本信息  
    - 文件名: " ++ file_name
        ++ u "  
    - 文件类型: " ++ file_type
        ++ u "
    - 大小: " ++ format_mb file_size
        ++ u " MB  
    - 分析时间: " ++ now
        ++ u "  

    ## 内容提取  
    - 识别到的行业: "
        ++ (if truthy extracted_industry then extracted_industry
            else u "未明确识别")
        ++ u "  
    - 识别到的采购目标: "
        ++ (if truthy extracted_objective then extracted_objective
            else u "未明确识别")
        ++ u "  

    ## 内容分析  
    - 识别到 " ++ str_of_N data_points
        ++ u " 个关键数据点  
    - 发现 " ++ str_of_N trends
        ++ u " 条潜在趋势/异常  
    - 建议结合「采购方法论」进一步优化策略  

    ## 结论  
    " ++ conclusion
        ++ u "
    " in
      let new_industry :=
        if truthy extracted_industry then extracted_industry
        else industry_input in
      let new_objective :=
        if truthy extracted_objective then extracted_objective
        else objective_input in
      let '(advice_title, advice_content) :=
        Intergration.get_procurement_advice new_industry new_objective in
      let full_result :=
        analysis_result ++ u "

## 推荐的采购方法论
### " ++ advice_title
        ++ u "
" ++ advice_content in
      ret (full_result, u "分析完成: " ++ file_name, new_industry, new_objective)
    else
      ret (u "# 请先上传文件", u "请上传文件进行分析",
           industry_input, objective_input)
  | None =>
    ret (u "# 请先上传文件", u "请上传文件进行分析",
         industry_input, objective_input)
  end.

End Analysis.

(** ** The rest of the two applications *)

(** The file types the upload widget of both applications accepts. *)
Definition SUPPORTED_FILE_TYPES : list str :=
  [u ".xlsx"; u ".xls"; u ".docx"; u ".doc"; u ".pdf"; u ".csv"].

(** [clear_files()], the same in both applications: no file, the two
    waiting messages and two empty input boxes. *)
Definition clear_files : option str * str * str * str * str :=
  (None, u "# 等待文件上传和分析...", u "请上传文件或填写采购需求", [], []).

(** [analyze_file] and [recommend_methodology] of
    [procurement_analysis_platform.py]. *)
Module PlatformApp.

Section App.
Context {U : UnicodeData} {H : Host}.
Local Open Scope monad_scope.

Definition analyze_file (file_path : option str)
  (industry_input objective_input : str) : M (str * str * str * str) :=
  match file_path with
  | Some path =>
    if truthy path then
      let file_name := basename path in
      file_size <- call (getsize path) ;;
      '(extracted_text, file_type) <-
        (if endswith (lower file_name) (u ".docx") then
           t <- extract_text_from_docx path ;; ret (t, u "Word文档")
         else if endswith_any (lower file_name) [u ".xlsx"; u ".xls"] then
           t <- extract_text_from_excel path ;; ret (t, u "Excel文档")
         else if endswith (lower file_name) (u ".csv") then
           t <- extract_text_from_csv path ;; ret (t, u "CSV文件")
         else ret (u "暂不支持该类型文件的内容提取", u "其他文件")) ;;
      '(extracted_industry, extracted_objective) <-
        (if truthy extracted_text && negb (str_eqb file_type (u "其他文件"))
         then extract_keywords extracted_text
         else ret ([], [])) ;;
      progress_loop 100 ;;
      let new_industry :=
        if truthy extracted_industry then extracted_industry
        else industry_input in
      let new_objective :=
        if truthy extracted_objective then extracted_objective
        else objective_input in
      let '(advice_title, advice_content, flow_chart) :=
        Platform.get_procurement_advice_with_flow new_industry new_objective in
      now <- datetime_now ;;
      data_points <- random_randint 3 10 ;;
      trends <- random_randint 1 3 ;;
      conclusion <- random_choice conclusions ;;
      let analysis_result :=
        u "
    # 文件分析报告  
    ## 基本信息  
    - 文件名: " ++ file_name
        ++ u "  
    - 文件类型: " ++ file_type
        ++ u "
    - 大小: " ++ format_mb file_size
        ++ u " MB  
    - 分析时间: " ++ now
        ++ u "  

    ## 内容提取  
    - 识别到的行业: "
        ++ (if truthy extracted_industry then extracted_industry
            else u "未明确识别")
        ++ u "  
    - 识别到的采购目标: "
        ++ (if truthy extracted_objective then extracted_objective
            else u "未明确识别")
        ++ u "  

    ## 内容分析  
    - 识别到 " ++ str_of_N data_points
        ++ u " 个关键数据点  
    - 发现 " ++ str_of_N trends
        ++ u " 条潜在趋势/异常  
    - 建议结合「采购方法论」进一步优化策略  

    ## 结论  
    " ++ conclusion
        ++ u "

    ## 推荐的采购方法论  
    ### " ++ advice_title
        ++ u "  
    " ++ advice_content
        ++ u "  

    ## 方法论流程图  
    " ++ flow_chart
        ++ u "
    " in
      ret (analysis_result, u "分析完成: " ++ file_name,
           new_industry, new_objective)
    else
      ret (u "# 请先上传文件", u "请上传文件进行分析",
           industry_input, objective_input)
  | None =>
    ret (u "# 请先上传文件", u "请上传文件进行分析",
         industry_input, objective_input)
  end.

(** The handler of the recommendation button: the record rendered as
    Markdown, and a status line. *)
Definition recommend_methodology (industry objective : str) : str * str :=
  let '(title, desc, flow) :=
    Platform.get_procurement_advice_with_flow industry objective in
  let result :=
    u "
    # 采购方法论推荐结果  

    ## " ++ title
    ++ u "  
    " ++ desc
    ++ u "  

    ## 流程图  
    " ++ flow
    ++ u "
    " in
  (result, u "已生成 " ++ title ++ u " 的推荐").

End App.

End PlatformApp.

(** ** Predicates and inputs used in the statements *)

(** A trigger word neither starts nor ends with a code point [strip] would
    remove (and is not empty). *)
Definition edges_kept (t : str) : bool :=
  match t with
  | [] => false
  | c :: _ => negb (isspace c) && negb (isspace (last t c))
  end.

(** The code points of the Chinese example text: CJK unified ideographs and
    the full-width comma.  They have no case. *)
Definition caseless (c : N) : bool :=
  ((19968 <=? c) && (c <=? 40959)) || (c =? 65292).

(** A table keeps a code point when lowering never changes it. *)
Definition keeps {U : UnicodeData} (c : N) : Prop :=
  forall before after, to_lower_full before c after = [c].

Definition is_scan (e : event) : bool :=
  match e with
  | EvScan _ => true
  | _ => false
  end.

Definition is_extract_keywords (e : event) : bool :=
  match e with
  | EvExtractKeywords _ => true
  | _ => false
  end.

(** A host on which the examples run: files are 2048 bytes long, a Word
    document holds two paragraphs, a CSV file one column and one row, and no
    spreadsheet can be opened.  The generator is a counter, and the standard
    output takes every line. *)
Definition example_host : Host :=
  {| rng := N;
     randbelow := fun n g => (g mod n, g + 1);
     clock := N;
     sleep := fun t => t + 30;
     strftime_now := fun _ => u "2025-01-01 00:00:00";
     getsize := fun _ => Ok 2048;
     format_mb := fun _ => u "0.00";
     Document := fun _ => Ok [u "我们是一家制造企业"; u "需要做物料计划"];
     workbook := unit;
     ExcelFile := fun _ => Raise (Exception (u "File is not a zip file"));
     sheet_names := fun _ => [];
     read_excel := fun _ _ => Raise (Exception (u "Worksheet not found"));
     read_csv := fun _ => Ok {| df_columns := [Some (u "item"); None];
                                df_rows := [[Some (u "reduce cost"); None]] |};
     stdout_write := fun _ => Ok tt |}.

Definition example_world (g : N) : @world example_host :=
  @Build_world example_host g 0 [].

(** The trigger words as the specification lists them. *)
Definition portfolio_triggers : list str :=
  [u "分类"; u "组合"; u "portfolio"; u "categorize"].

Definition collaboration_triggers : list str :=
  [u "合作"; u "联合"; u "协作"; u "collaboration"].

Definition manufacturing_triggers : list str :=
  [u "制造"; u "生产"; u "manufacture"].

Definition maintenance_triggers : list str :=
  [u "维护"; u "维修"; u "mro"; u "间接物料"].

Definition cost_triggers : list str :=
  [u "成本"; u "节约"; u "降低"; u "control"; u "reduce"].

(** The material-planning triggers of [intergration.py] and the wider list
    of [procurement_analysis_platform.py]. *)
Definition material_plan_triggers : list str :=
  [u "物料计划"; u "mrp"; u "生产排期"].

Definition material_plan_triggers_flow : list str :=
  [u "物料"; u "计划"; u "mrp"; u "生产排期"].

(** The portfolio triggers [procurement_analysis_platform.py] tests. *)
Definition portfolio_triggers_flow : list str :=
  [u "分类"; u "组合"; u "portfolio"].

(** The trigger words only [methodology-chosen.py] tests: its material and
    inventory words, which open its first rule together, and the words its
    collaboration and maintenance rules add to the lists above. *)
Definition material_triggers_minimal : list str :=
  [u "物料"; u "材料"; u "material"].

Definition inventory_triggers_minimal : list str :=
  [u "库存"; u "库存管理"; u "inventory"; u "stock"].

Definition extra_triggers_minimal : list str :=
  [u "joint"; u "供应商管理"; u "vmi"; u "maintenance"; u "repair"].

(** ** Specifications of computations *)

Section Specifications.
Context {H : Host}.

(** The world after the events [evs] were recorded. *)
Definition add_events (w : world) (evs : list event) : world :=
  {| w_rng := w_rng w; w_clock := w_clock w; w_trace := w_trace w ++ evs |}.

(** From every world [m] ends with an outcome [r] after recording the events
    [evs], and [Q r evs] holds. *)
Definition runs {A : Type} (m : M A)
  (Q : result A -> list event -> Prop) : Prop :=
  forall w, exists evs,
    w_trace (snd (m w)) = w_trace w ++ evs /\ Q (fst (m w)) evs.

(** The outcome of [m] is the same from every world: it depends neither on
    the generator nor on the clock nor on the trace. *)
Definition blind {A : Type} (m : M A) : Prop :=
  forall w1 w2, fst (m w1) = fst (m w2).

(** Whenever [m1] and [m2] both return, from any two worlds, the values they
    return are related by [R]. *)
Definition related {A : Type} (m1 m2 : M A) (R : A -> A -> Prop) : Prop :=
  forall w1 w2 a b, fst (m1 w1) = Ok a -> fst (m2 w2) = Ok b -> R a b.

(** From every world [m] returns a value that satisfies [P], and the events
    it records hold no call of the classifier. *)
Definition skips_classifier {A : Type} (m : M A) (P : A -> Prop) : Prop :=
  runs m (fun r evs =>
            (exists a, r = Ok a /\ P a) /\
            existsb is_extract_keywords evs = false).

(** [random._randbelow(n)] returns a number below [n]. *)
Definition randbelow_in_range : Prop :=
  forall n g, 0 < n -> fst (randbelow n g) < n.

End Specifications.

(** The text of the end-to-end example of the specification. *)
Definition example_text : str :=
  u "我们是一家制造企业，需要做物料计划和生产排期".

(** ** Statements about the file analysis *)

Section AnalysisStatements.
Context {U : UnicodeData} {H : Host}.



(** The last part of the report of [analyze_file]: the recommendation. *)
Definition advice_section (advice : str * str) : str :=
  u "

## 推荐的采购方法论
### " ++ fst advice ++ u "
" ++ snd advice.

(** Two results of [analyze_file] carry the same labels, the same status and
    the same recommendation, the one [get_procurement_advice] gives for the
    labels; the reports may differ before it. *)
Definition same_advice (r1 r2 : str * str * str * str) : Prop :=
  let '(full1, status1, industry1, objective1) := r1 in
  let '(full2, status2, industry2, objective2) := r2 in
  status1 = status2 /\ industry1 = industry2 /\ objective1 = objective2 /\
  exists head1 head2,
    full1 = head1 ++ advice_section
              (Intergration.get_procurement_advice industry1 objective1) /\
    full2 = head2 ++ advice_section
              (Intergration.get_procurement_advice industry1 objective1).

(** The last part of the report of [analyze_file] in the diagram variant:
    the recommendation and its flow chart. *)
Definition flow_advice_section (advice : str * str * str) : str :=
  let '(advice_title, advice_content, flow_chart) := advice in
  u "

    ## 推荐的采购方法论  
    ### " ++ advice_title
  ++ u "  
    " ++ advice_content
  ++ u "  

    ## 方法论流程图  
    " ++ flow_chart
  ++ u "
    ".

(** Two results of [analyze_file] in the diagram variant carry the same
    labels, the same status and the same recommendation with the same flow
    chart, the record [get_procurement_advice_with_flow] gives for the
    labels; the reports may differ before it. *)
Definition same_advice_with_flow (r1 r2 : str * str * str * str) : Prop :=
  let '(full1, status1, industry1, objective1) := r1 in
  let '(full2, status2, industry2, objective2) := r2 in
  status1 = status2 /\ industry1 = industry2 /\ objective1 = objective2 /\
  exists head1 head2,
    full1 = head1 ++ flow_advice_section
              (Platform.get_procurement_advice_with_flow
                 industry1 objective1) /\
    full2 = head2 ++ flow_advice_section
              (Platform.get_procurement_advice_with_flow
                 industry1 objective1).




End AnalysisStatements.

(** The collaboration and maintenance words of [methodology-chosen.py], the
    two lists each of its rules tests put together. *)
Definition collaboration_triggers_minimal : list str :=
  [u "合作"; u "联合"; u "协作"; u "collaboration"; u "joint";
   u "供应商管理"; u "联合库存"; u "vmi"].

Definition maintenance_triggers_minimal : list str :=
  [u "维护"; u "维修"; u "maintenance"; u "repair";
   u "间接物料"; u "维护用品"; u "mro"].

(** The block [extract_text_from_excel] writes for one sheet; the extractor
    is proved to write exactly it ([extract_text_from_excel_blocks]). *)
Definition sheet_block (sheet_name : str) (df : DataFrame) : str :=
  let sheet_text := u "工作表: " ++ sheet_name ++ u "
" in
  let columns := notna_strs (df_columns df) in
  let sheet_text :=
    if truthy_list columns
    then sheet_text ++ u "列名: " ++ join (u ", ") columns ++ u "
"
    else sheet_text in
  let sample_data := sample_rows (firstn 5 (df_rows df)) in
  if truthy_list sample_data
  then sheet_text ++ u "样本数据: " ++ join (u "; ") sample_data ++ u "
"
  else sheet_text.

(** ** Further statements about computations *)

Section FurtherSpecifications.
Context {H : Host}.


(** Two outcomes leave the same world and either both return, values
    related by [R], or both raise the same exception. *)
Definition agree {A B : Type} (R : A -> B -> Prop)
  (p : result A * world) (q : result B * world) : Prop :=
  snd p = snd q /\
  match fst p, fst q with
  | Ok a, Ok b => R a b
  | Raise e1, Raise e2 => e1 = e2
  | _, _ => False
  end.

(** The status and the two labels of a result of [analyze_file]. *)
Definition status_and_labels (r : str * str * str * str) : str * str * str :=
  let '(_, status, industry, objective) := r in (status, industry, objective).

End FurtherSpecifications.

(** A host whose workbooks can be read: a workbook is the list of its sheets
    with their names, here two sheets, the second without any value.  The
    file "gone.xlsx" is missing: its size cannot be read.  The standard
    output takes every line. *)
Definition example_workbook : list (str * DataFrame) :=
  [ (u "Q1", {| df_columns := [Some (u "物料"); None; Some (u "qty")];
                df_rows := [[Some (u "bolt"); None; Some (u "12")];
                            [None; None; None]] |});
    (u "备注", {| df_columns := [None]; df_rows := [] |}) ].

Definition example_workbook_host : Host :=
  {| rng := N;
     randbelow := fun n g => (g mod n, g + 1);
     clock := N;
     sleep := fun t => t + 30;
     strftime_now := fun _ => u "2025-01-01 00:00:00";
     getsize := fun path =>
       if str_eqb path (u "gone.xlsx")
       then Raise (Exception (u "No such file or directory"))
       else Ok 4096;
     format_mb := fun _ => u "0.00";
     Document := fun _ => Raise (Exception (u "Package not found"));
     workbook := list (str * DataFrame);
     ExcelFile := fun _ => Ok example_workbook;
     sheet_names := fun wb => map fst wb;
     read_excel := fun wb name =>
       match find (fun entry => str_eqb (fst entry) name) wb with
       | Some entry => Ok (snd entry)
       | None => Raise (Exception (u "Worksheet not found"))
       end;
     read_csv := fun _ => Raise (Exception (u "No columns to parse from file"));
     stdout_write := fun _ => Ok tt
  |}.



Section ClassifierCalls.
Context {H : Host}.

(** From every world [m] returns a value that satisfies [P], and the calls
    of the classifier it records are exactly [calls], in this order. *)
Definition calls_classifier {A : Type} (m : M A) (calls : list event)
  (P : A -> Prop) : Prop :=
  runs m (fun r evs =>
            (exists a, r = Ok a /\ P a) /\
            filter is_extract_keywords evs = calls).

End ClassifierCalls.

(** * Properties *)

(** ** Strings *)

Section StringFacts.

Example u_ascii : u "mrp" = [109; 114; 112].
Proof. reflexivity. Qed.

Example u_cjk : u "制造，" = [21046; 36896; 65292].
Proof. reflexivity. Qed.

Example strip_example : strip (u "  　MRP 计划 	") = u "MRP 计划".
Proof. vm_compute. reflexivity. Qed.

Example lower_example :
  @lower basic_latin (u "Reduce MRO 成本") = u "reduce mro 成本".
Proof. vm_compute. reflexivity. Qed.

Example in_str_example :
  in_str (u "物料") (u "需要做物料计划") = true /\
  in_str (u "库存") (u "需要做物料计划") = false /\
  in_str [] (u "mrp") = true.
Proof. repeat split. Qed.

Example basename_example : basename (u "data/in/orders.XLSX") = u "orders.XLSX".
Proof. vm_compute. reflexivity. Qed.

Lemma startswith_iff (s t : str) :
  startswith s t = true <-> exists b, s = t ++ b.
Proof.
  revert s; induction t as [|c t IH]; intros s; simpl.
  - split; [intros _; now exists s | reflexivity].
  - destruct s as [|d s]; simpl.
    + split; [discriminate | intros [b Hb]; discriminate].
    + rewrite andb_true_iff, N.eqb_eq, IH. split.
      * intros [-> [b ->]]. now exists b.
      * intros [b Hb]. injection Hb as -> ->. split; [reflexivity | now exists b].
Qed.

Lemma in_str_iff (t s : str) :
  in_str t s = true <-> exists a b, s = a ++ t ++ b.
Proof.
  induction s as [|d s IH].
  - simpl. rewrite orb_false_r, startswith_iff. split.
    + intros [b Hb]. now exists [], b.
    + intros [a [b Hab]]. symmetry in Hab.
      apply app_eq_nil in Hab as [-> Hab]. apply app_eq_nil in Hab as [-> ->].
      now exists [].
  - cbn [in_str]. rewrite orb_true_iff, startswith_iff, IH. split.
    + intros [[b Hb] | [a [b Hab]]].
      * now exists [], b.
      * exists (d :: a), b. now rewrite Hab.
    + intros [[|x a] [b Hab]].
      * left. now exists b.
      * right. injection Hab as -> ->. now exists a, b.
Qed.

Lemma in_str_nil (t : str) : t <> [] -> in_str t [] = false.
Proof.
  intros Ht. destruct t; [contradiction | reflexivity].
Qed.

Lemma in_str_within (t s a b : str) :
  in_str t s = true -> in_str t (a ++ s ++ b) = true.
Proof.
  rewrite !in_str_iff. intros [x [y ->]].
  exists (a ++ x), (y ++ b). now rewrite <- !app_assoc.
Qed.

Lemma lstrip_drops (s : str) : exists a, s = a ++ lstrip s.
Proof.
  induction s as [|c s [a IH]]; simpl.
  - now exists [].
  - destruct (isspace c).
    + exists (c :: a). simpl. now f_equal.
    + now exists [].
Qed.

Lemma rstrip_drops (s : str) : exists b, s = rstrip s ++ b.
Proof.
  unfold rstrip. destruct (lstrip_drops (rev s)) as [a Ha].
  exists (rev a). rewrite <- rev_app_distr, <- Ha. now rewrite rev_involutive.
Qed.

Lemma strip_drops (s : str) : exists a b, s = a ++ strip s ++ b.
Proof.
  unfold strip. destruct (lstrip_drops s) as [a Ha].
  destruct (rstrip_drops (lstrip s)) as [b Hb].
  exists a, b. now rewrite <- Hb.
Qed.

Lemma lstrip_stops (a r : str) (c : N) :
  isspace c = false -> exists a', lstrip (a ++ c :: r) = a' ++ c :: r.
Proof.
  intros Hc. induction a as [|x a [a' IH]]; simpl.
  - rewrite Hc. now exists [].
  - destruct (isspace x).
    + now exists a'.
    + now exists (x :: a).
Qed.

Lemma rstrip_stops (r b : str) (c : N) :
  isspace c = false -> exists b', rstrip (r ++ c :: b) = r ++ c :: b'.
Proof.
  intros Hc. unfold rstrip.
  rewrite rev_app_distr. simpl. rewrite <- app_assoc. simpl.
  destruct (lstrip_stops (rev b) (rev r) c Hc) as [a' ->].
  exists (rev a'). rewrite rev_app_distr. simpl.
  now rewrite rev_involutive, <- app_assoc.
Qed.

Lemma edges_kept_shape (t : str) :
  edges_kept t = true ->
  exists c t' d t'',
    t = c :: t' /\ t = t'' ++ [d] /\ isspace c = false /\ isspace d = false.
Proof.
  destruct t as [|c t']; [discriminate|].
  unfold edges_kept. rewrite andb_true_iff, !negb_true_iff. intros [Hc Hd].
  assert (Hne : c :: t' <> []) by discriminate.
  destruct (exists_last Hne) as [t'' [d Hd']].
  exists c, t', d, t''. repeat split; auto.
  rewrite Hd', last_last in Hd. exact Hd.
Qed.

(** Stripping the text neither adds nor removes an occurrence of a word
    whose two ends are kept. *)
Lemma in_str_strip (t s : str) :
  edges_kept t = true -> in_str t (strip s) = in_str t s.
Proof.
  intros Ht. apply eq_true_iff_eq. split.
  - intros Hin. destruct (strip_drops s) as [a [b Hs]].
    rewrite Hs. now apply in_str_within.
  - rewrite !in_str_iff. intros [a [b ->]].
    destruct (edges_kept_shape t Ht) as [c [t' [d [t'' [Hc [Hd [Sc Sd]]]]]]].
    unfold strip.
    assert (E1 : a ++ t ++ b = a ++ c :: (t' ++ b)) by now rewrite Hc.
    rewrite E1. destruct (lstrip_stops a (t' ++ b) c Sc) as [a' ->].
    assert (E2 : a' ++ c :: t' ++ b = (a' ++ t'') ++ d :: b).
    { change (c :: t' ++ b) with ((c :: t') ++ b).
      rewrite <- Hc, Hd, <- !app_assoc. reflexivity. }
    rewrite E2. destruct (rstrip_stops (a' ++ t'') b d Sd) as [b' ->].
    exists a', b'. rewrite Hd, <- !app_assoc. reflexivity.
Qed.

Lemma any_in_strip (ws : list str) (s : str) :
  forallb edges_kept ws = true -> any_in ws (strip s) = any_in ws s.
Proof.
  unfold any_in. induction ws as [|w ws IH]; cbn [existsb forallb]; [reflexivity|].
  rewrite andb_true_iff. intros [Hw Hws].
  now rewrite in_str_strip, IH.
Qed.

Lemma any_in_nil (ws : list str) :
  forallb truthy ws = true -> any_in ws [] = false.
Proof.
  unfold any_in. induction ws as [|w ws IH]; cbn [existsb forallb]; [reflexivity|].
  rewrite andb_true_iff. intros [Hw Hws]. rewrite IH by assumption.
  destruct w; [discriminate | reflexivity].
Qed.

(** A word found by a shorter list of triggers is found by a longer one. *)
Lemma any_in_incl (ws ws' : list str) (s : str) :
  incl ws ws' -> any_in ws s = true -> any_in ws' s = true.
Proof.
  unfold any_in. rewrite !existsb_exists. intros Hi [w [Hw Hs]].
  exists w. split; [now apply Hi | exact Hs].
Qed.

(** A trigger that contains another one fires whenever the other does not
    fail: if [t] occurs in [t'] then [t'] in [s] implies [t] in [s]. *)
Lemma in_str_trans (t t' s : str) :
  in_str t t' = true -> in_str t' s = true -> in_str t s = true.
Proof.
  rewrite !in_str_iff. intros [a [b ->]] [x [y ->]].
  exists (x ++ a), (b ++ y). now rewrite <- !app_assoc.
Qed.

Lemma str_eqb_eq (a b : str) : str_eqb a b = true <-> a = b.
Proof.
  revert b; induction a as [|c a IH]; intros [|d b]; simpl;
    try (split; [discriminate | discriminate]); try tauto.
  rewrite andb_true_iff, N.eqb_eq, IH. split.
  - now intros [-> ->].
  - intros E. injection E as -> ->. tauto.
Qed.

Lemma str_neq (a b : str) : str_eqb a b = false -> a <> b.
Proof.
  intros E Hab. apply str_eqb_eq in Hab. congruence.
Qed.

Lemma any_in_cons (w : str) (ws : list str) (s : str) :
  any_in (w :: ws) s = in_str w s || any_in ws s.
Proof. reflexivity. Qed.

(** A text without the shorter word is without the longer one. *)
Lemma in_str_absent (t t' s : str) :
  in_str t t' = true -> in_str t s = false -> in_str t' s = false.
Proof.
  intros Htt Hts. destruct (in_str t' s) eqn:E; [|reflexivity].
  rewrite <- Hts. symmetry. now apply (in_str_trans t t').
Qed.

End StringFacts.

Section LowerFacts.
Context {U : UnicodeData}.

Lemma lower_nil : lower [] = [].
Proof. reflexivity. Qed.

Lemma lower_from_keeps (before s : str) :
  Forall keeps s -> lower_from before s = s.
Proof.
  intros Hs. revert before. induction Hs as [|c s Hc Hs IH]; intros before.
  - reflexivity.
  - simpl. rewrite Hc, IH. reflexivity.
Qed.

Lemma lower_keeps (s : str) : Forall keeps s -> lower s = s.
Proof. apply lower_from_keeps. Qed.

Lemma caseless_keeps (s : str) :
  (forall c, caseless c = true -> keeps c) ->
  forallb caseless s = true -> lower s = s.
Proof.
  intros Hk Hs. apply lower_keeps. rewrite Forall_forall.
  rewrite forallb_forall in Hs. intros c Hc. apply Hk, Hs, Hc.
Qed.

End LowerFacts.

(** ** The recommenders *)

Ltac advice_unfold :=
  unfold MethodologyChosen.get_procurement_advice,
         Intergration.get_procurement_advice,
         Platform.get_procurement_advice_with_flow;
  cbv zeta;
  rewrite ?any_in_strip by reflexivity.

Ltac split_guards :=
  repeat match goal with
         | |- context [if ?b then _ else _] =>
           lazymatch b with
           | true => fail
           | false => fail
           | _ => destruct b eqn:?; cbv iota
           end
         end.

Ltac pick_member :=
  repeat match goal with
         | |- In ?x (?x :: _) => apply in_eq
         | |- In _ (_ :: _) => apply in_cons
         end.

Section Recommenders.
Context {U : UnicodeData}.

(** Both copies of the extended rule set test the portfolio words first. *)
Lemma intergration_portfolio_first (industry objective : str) :
  any_in portfolio_triggers (lower objective) = true ->
  Intergration.get_procurement_advice industry objective
  = Intergration.kraljic.
Proof.
  intros Hp. advice_unfold. unfold portfolio_triggers in Hp.
  now rewrite Hp.
Qed.

Lemma platform_portfolio_first (industry objective : str) :
  any_in portfolio_triggers_flow (lower objective) = true ->
  Platform.get_procurement_advice_with_flow industry objective
  = Platform.kraljic.
Proof.
  intros Hp. advice_unfold. unfold portfolio_triggers_flow in Hp.
  now rewrite Hp.
Qed.

(** Whatever the input, the answer is one of the six records of the
    catalogue. *)
Lemma intergration_in_catalogue (industry objective : str) :
  In (Intergration.get_procurement_advice industry objective)
     [Intergration.kraljic; Intergration.vmi; Intergration.mrp;
      Intergration.mro; Intergration.tco; Intergration.fallback].
Proof.
  unfold Intergration.get_procurement_advice; cbv zeta.
  split_guards; pick_member.
Qed.

Lemma platform_in_catalogue (industry objective : str) :
  In (Platform.get_procurement_advice_with_flow industry objective)
     [Platform.kraljic; Platform.vmi; Platform.mrp;
      Platform.mro; Platform.tco; Platform.fallback].
Proof.
  unfold Platform.get_procurement_advice_with_flow; cbv zeta.
  split_guards; pick_member.
Qed.

(** Without a manufacturing word in the industry the third rule is closed. *)
Lemma intergration_gate (industry objective : str) :
  any_in manufacturing_triggers (lower industry) = false ->
  any_in portfolio_triggers (lower objective) = false ->
  any_in collaboration_triggers (lower objective) = false ->
  In (Intergration.get_procurement_advice industry objective)
     [Intergration.mro; Intergration.tco; Intergration.fallback].
Proof.
  unfold manufacturing_triggers, portfolio_triggers, collaboration_triggers.
  intros Hm Hp Hc. advice_unfold. rewrite Hm, Hp, Hc, andb_false_r.
  split_guards; pick_member.
Qed.

Lemma platform_gate (industry objective : str) :
  any_in manufacturing_triggers (lower industry) = false ->
  any_in portfolio_triggers_flow (lower objective) = false ->
  any_in collaboration_triggers (lower objective) = false ->
  In (Platform.get_procurement_advice_with_flow industry objective)
     [Platform.mro; Platform.tco; Platform.fallback].
Proof.
  unfold manufacturing_triggers, portfolio_triggers_flow,
    collaboration_triggers.
  intros Hm Hp Hc. advice_unfold. rewrite Hm, Hp, Hc, andb_false_r.
  split_guards; pick_member.
Qed.

Lemma portfolio_flow_weaker (s : str) :
  any_in portfolio_triggers s = false ->
  any_in portfolio_triggers_flow s = false.
Proof.
  intros Hp. destruct (any_in portfolio_triggers_flow s) eqn:E; [|reflexivity].
  rewrite <- Hp. symmetry. apply (any_in_incl portfolio_triggers_flow); [|exact E].
  intros w Hw. cbn [In portfolio_triggers_flow] in Hw. unfold portfolio_triggers.
  cbn [In]. tauto.
Qed.

End Recommenders.

(** Two records with different titles are different. *)
Ltac differ_by_title :=
  let E := fresh in
  intros E;
  first [ apply (f_equal fst) in E;
          revert E; apply str_neq; vm_compute; reflexivity
        | apply (f_equal (fun r => fst (fst r))) in E;
          revert E; apply str_neq; vm_compute; reflexivity ].

Ltac split_words :=
  repeat match goal with
         | |- context [any_in ?l ?s] => destruct (any_in l s)
         end;
  cbv beta iota delta [orb andb].

Section Claims.
Context {U : UnicodeData}.

(** C2.  The MRP rule is gated by the industry.  Take an objective whose
    lower-cased form holds no portfolio and no collaboration trigger, and the
    empty industry.  If the objective holds a material-planning trigger, then
    neither copy of the extended rule set answers with its MRP record: the
    answer is the MRO record, the TCO record or the fallback record. *)
Theorem mrp_rule_needs_manufacturing (objective : str) :
  any_in portfolio_triggers (lower objective) = false ->
  any_in collaboration_triggers (lower objective) = false ->
  (any_in material_plan_triggers (lower objective) = true ->
   Intergration.get_procurement_advice [] objective <> Intergration.mrp /\
   In (Intergration.get_procurement_advice [] objective)
      [Intergration.mro; Intergration.tco; Intergration.fallback]) /\
  (any_in material_plan_triggers_flow (lower objective) = true ->
   Platform.get_procurement_advice_with_flow [] objective <> Platform.mrp /\
   In (Platform.get_procurement_advice_with_flow [] objective)
      [Platform.mro; Platform.tco; Platform.fallback]).
Proof.
  intros Hp Hc.
  assert (Hm : any_in manufacturing_triggers (lower []) = false)
    by (rewrite lower_nil; now apply any_in_nil).
  split; intros _.
  - pose proof (intergration_gate [] objective Hm Hp Hc) as Hin.
    split; [|exact Hin].
    destruct Hin as [E|[E|[E|[]]]]; rewrite <- E; differ_by_title.
  - pose proof (platform_gate [] objective Hm
                  (portfolio_flow_weaker _ Hp) Hc) as Hin.
    split; [|exact Hin].
    destruct Hin as [E|[E|[E|[]]]]; rewrite <- E; differ_by_title.
Qed.

(** C5.  The recommender is total and falls back when nothing matches.  For
    every pair of strings both copies of the extended rule set return one of
    the six records of their catalogue, each with a non-empty title and a
    non-empty rationale; on two empty strings they return the fallback
    record, whose title is the comprehensive evaluation method. *)
Theorem advice_total_with_fallback (industry objective : str) :
  (In (Intergration.get_procurement_advice industry objective)
      [Intergration.kraljic; Intergration.vmi; Intergration.mrp;
       Intergration.mro; Intergration.tco; Intergration.fallback] /\
   truthy (fst (Intergration.get_procurement_advice industry objective))
   = true /\
   truthy (snd (Intergration.get_procurement_advice industry objective))
   = true) /\
  (In (Platform.get_procurement_advice_with_flow industry objective)
      [Platform.kraljic; Platform.vmi; Platform.mrp;
       Platform.mro; Platform.tco; Platform.fallback] /\
   truthy (fst (fst (Platform.get_procurement_advice_with_flow
                       industry objective))) = true /\
   truthy (snd (fst (Platform.get_procurement_advice_with_flow
                       industry objective))) = true) /\
  Intergration.get_procurement_advice [] [] = Intergration.fallback /\
  fst Intergration.fallback = u "采购策略综合评估法" /\
  Platform.get_procurement_advice_with_flow [] [] = Platform.fallback /\
  fst (fst Platform.fallback) = u "采购策略综合评估法".
Proof.
  repeat split; try reflexivity.
  - apply intergration_in_catalogue.
  - destruct (intergration_in_catalogue industry objective)
      as [E|[E|[E|[E|[E|[E|[]]]]]]]; rewrite <- E; reflexivity.
  - destruct (intergration_in_catalogue industry objective)
      as [E|[E|[E|[E|[E|[E|[]]]]]]]; rewrite <- E; reflexivity.
  - apply platform_in_catalogue.
  - destruct (platform_in_catalogue industry objective)
      as [E|[E|[E|[E|[E|[E|[]]]]]]]; rewrite <- E; reflexivity.
  - destruct (platform_in_catalogue industry objective)
      as [E|[E|[E|[E|[E|[E|[]]]]]]]; rewrite <- E; reflexivity.
Qed.

(** The minimal rule set never reaches its third rule: a material word and an
    inventory word already open the first one. *)
Lemma minimal_in_catalogue (industry objective : str) :
  In (MethodologyChosen.get_procurement_advice industry objective)
     [MethodologyChosen.kraljic; MethodologyChosen.vmi;
      MethodologyChosen.mro; MethodologyChosen.fallback].
Proof.
  unfold MethodologyChosen.get_procurement_advice; cbv zeta.
  split_words; pick_member.
Qed.

(** C10.  In the minimal rule set the MRP branch is unreachable.  For every
    pair of strings [get_procurement_advice] of [methodology-chosen.py]
    returns the Kraljic, VMI, MRO or fallback record, never the MRP record,
    and the title it returns does not contain the MRP title. *)
Theorem minimal_mrp_unreachable (industry objective : str) :
  In (MethodologyChosen.get_procurement_advice industry objective)
     [MethodologyChosen.kraljic; MethodologyChosen.vmi;
      MethodologyChosen.mro; MethodologyChosen.fallback] /\
  MethodologyChosen.get_procurement_advice industry objective
  <> MethodologyChosen.mrp /\
  in_str (u "MRP物料需求计划方法论")
         (fst (MethodologyChosen.get_procurement_advice industry objective))
  = false.
Proof.
  pose proof (minimal_in_catalogue industry objective) as Hin.
  split; [exact Hin|].
  destruct Hin as [E|[E|[E|[E|[]]]]]; rewrite <- E;
    (split; [differ_by_title | vm_compute; reflexivity]).
Qed.

(** The facts [in_str w s = false] for the words [w] of a list that
    [any_in] finds nothing of. *)
Ltac absent_words H :=
  cbn [any_in existsb] in H;
  repeat (apply orb_false_iff in H; let W := fresh "W" in destruct H as [W H]);
  clear H.

(** C6 (as amended).  Take an objective whose lower-cased form holds a
    cost-reduction trigger and no portfolio, collaboration or maintenance
    trigger.  Each copy of the extended rule set returns its TCO record
    unless its material-planning rule fires.  The minimal rule set has no TCO
    record: it returns its Kraljic, VMI, MRO or fallback record, and it
    returns the fallback record when none of its own further words (joint,
    供应商管理, vmi, maintenance, repair, or a material word together with
    an inventory word) occurs in the objective. *)
Theorem cost_rule_by_rule_set (industry objective : str) :
  any_in cost_triggers (lower objective) = true ->
  any_in portfolio_triggers (lower objective) = false ->
  any_in collaboration_triggers (lower objective) = false ->
  any_in maintenance_triggers (lower objective) = false ->
  (any_in material_plan_triggers (lower objective)
   && any_in manufacturing_triggers (lower industry) = false ->
   Intergration.get_procurement_advice industry objective
   = Intergration.tco) /\
  (any_in material_plan_triggers_flow (lower objective)
   && any_in manufacturing_triggers (lower industry) = false ->
   Platform.get_procurement_advice_with_flow industry objective
   = Platform.tco) /\
  In (MethodologyChosen.get_procurement_advice industry objective)
     [MethodologyChosen.kraljic; MethodologyChosen.vmi;
      MethodologyChosen.mro; MethodologyChosen.fallback] /\
  (any_in material_triggers_minimal (lower objective)
   && any_in inventory_triggers_minimal (lower objective) = false ->
   any_in extra_triggers_minimal (lower objective) = false ->
   MethodologyChosen.get_procurement_advice industry objective
   = MethodologyChosen.fallback).
Proof.
  intros Hcost Hp Hc Hm.
  pose proof (portfolio_flow_weaker _ Hp) as Hpf.
  unfold cost_triggers, portfolio_triggers, collaboration_triggers,
    maintenance_triggers, portfolio_triggers_flow in *.
  repeat split.
  - unfold material_plan_triggers, manufacturing_triggers. intros Hg.
    advice_unfold. now rewrite Hp, Hc, Hg, Hm, Hcost.
  - unfold material_plan_triggers_flow, manufacturing_triggers. intros Hg.
    advice_unfold. now rewrite Hpf, Hc, Hg, Hm, Hcost.
  - apply minimal_in_catalogue.
  - unfold material_triggers_minimal, inventory_triggers_minimal,
      extra_triggers_minimal.
    intros Hmi Hx. advice_unfold. rewrite Hp, Hmi. cbn [orb andb].
    absent_words Hc. absent_words Hm. absent_words Hx.
    pose proof (in_str_absent (u "联合") (u "联合库存") _ eq_refl W0) as J1.
    pose proof (in_str_absent (u "维护") (u "维护用品") _ eq_refl W3) as J2.
    cbn [any_in existsb].
    now rewrite W, W0, W1, W2, W3, W4, W5, W6, W7, W8, W9, W10, W11, J1, J2.
Qed.

End Claims.

(** C1 (the input on which the code departs from the claim).  The objective
    "categorize collaboration" holds the portfolio trigger "categorize" and
    the collaboration trigger "collaboration".  [get_procurement_advice] of
    [intergration.py] answers with the Kraljic record;
    [get_procurement_advice_with_flow] does not test "categorize" and answers
    with the VMI record. *)
Theorem flow_variant_misses_categorize :
  any_in portfolio_triggers
         (@lower basic_latin (u "categorize collaboration")) = true /\
  any_in collaboration_triggers
         (@lower basic_latin (u "categorize collaboration")) = true /\
  @Intergration.get_procurement_advice basic_latin
     [] (u "categorize collaboration") = Intergration.kraljic /\
  @Platform.get_procurement_advice_with_flow basic_latin
     [] (u "categorize collaboration") = Platform.vmi /\
  fst (fst Platform.vmi) = u "VMI联合价值创造模型".
Proof.
  repeat split; vm_compute; reflexivity.
Qed.

(** C2 at the objective "mrp plan" with the empty industry. *)
Lemma mrp_rule_needs_manufacturing_witness :
  (@Intergration.get_procurement_advice basic_latin [] (u "mrp plan")
   <> Intergration.mrp /\
   In (@Intergration.get_procurement_advice basic_latin [] (u "mrp plan"))
      [Intergration.mro; Intergration.tco; Intergration.fallback]) /\
  (@Platform.get_procurement_advice_with_flow basic_latin [] (u "mrp plan")
   <> Platform.mrp /\
   In (@Platform.get_procurement_advice_with_flow basic_latin
         [] (u "mrp plan"))
      [Platform.mro; Platform.tco; Platform.fallback]).
Proof.
  destruct (@mrp_rule_needs_manufacturing basic_latin (u "mrp plan"))
    as [HI HP].
  - vm_compute; reflexivity.
  - vm_compute; reflexivity.
  - split; [apply HI | apply HP]; vm_compute; reflexivity.
Defined.

(** C6 (counterexample).  The objective "reduce repair cost" holds the
    cost-reduction trigger "reduce" and matches no earlier rule of the
    extended rule set, which answers with the TCO record; the minimal rule
    set tests "repair" and answers with its MRO record, not with its
    fallback record. *)
Lemma minimal_cost_objective_reaches_mro :
  any_in cost_triggers (@lower basic_latin (u "reduce repair cost")) = true /\
  any_in portfolio_triggers
         (@lower basic_latin (u "reduce repair cost")) = false /\
  any_in collaboration_triggers
         (@lower basic_latin (u "reduce repair cost")) = false /\
  any_in maintenance_triggers
         (@lower basic_latin (u "reduce repair cost")) = false /\
  any_in material_plan_triggers_flow
         (@lower basic_latin (u "reduce repair cost")) = false /\
  @Intergration.get_procurement_advice basic_latin
     [] (u "reduce repair cost") = Intergration.tco /\
  @Platform.get_procurement_advice_with_flow basic_latin
     [] (u "reduce repair cost") = Platform.tco /\
  @MethodologyChosen.get_procurement_advice basic_latin
     [] (u "reduce repair cost") = MethodologyChosen.mro /\
  MethodologyChosen.mro <> MethodologyChosen.fallback.
Proof.
  repeat split; try (vm_compute; reflexivity).
  differ_by_title.
Qed.

(** C6 (as amended) at the objective "reduce cost" with the empty
    industry. *)
Lemma cost_rule_by_rule_set_witness :
  @Intergration.get_procurement_advice basic_latin [] (u "reduce cost")
  = Intergration.tco /\
  @Platform.get_procurement_advice_with_flow basic_latin [] (u "reduce cost")
  = Platform.tco /\
  In (@MethodologyChosen.get_procurement_advice basic_latin
        [] (u "reduce cost"))
     [MethodologyChosen.kraljic; MethodologyChosen.vmi;
      MethodologyChosen.mro; MethodologyChosen.fallback] /\
  @MethodologyChosen.get_procurement_advice basic_latin [] (u "reduce cost")
  = MethodologyChosen.fallback.
Proof.
  destruct (@cost_rule_by_rule_set basic_latin [] (u "reduce cost"))
    as [HI [HP [HM HF]]].
  - vm_compute; reflexivity.
  - vm_compute; reflexivity.
  - vm_compute; reflexivity.
  - vm_compute; reflexivity.
  - split; [|split; [|split]].
    + apply HI; vm_compute; reflexivity.
    + apply HP; vm_compute; reflexivity.
    + exact HM.
    + apply HF; vm_compute; reflexivity.
Defined.

(** ** The monad *)

Section MonadFacts.
Context {H : Host}.

Lemma add_events_nil (w : world) : add_events w [] = w.
Proof.
  destruct w as [g c t]. unfold add_events. simpl. now rewrite app_nil_r.
Qed.

Lemma add_events_app (w : world) (a b : list event) :
  add_events (add_events w a) b = add_events w (a ++ b).
Proof.
  unfold add_events. simpl. now rewrite app_assoc.
Qed.

Lemma emit_run (e : event) (w : world) : emit e w = (Ok tt, add_events w [e]).
Proof. reflexivity. Qed.

Lemma Ok_inj {A : Type} (a b : A) : Ok a = Ok b -> a = b.
Proof. intros E. now injection E. Qed.


Lemma bind_ok {A B : Type} (m : M A) (k : A -> M B) (w w' : world) (a : A) :
  m w = (Ok a, w') -> bind m k w = k a w'.
Proof. unfold bind. now intros ->. Qed.

Lemma bind_raise {A B : Type} (m : M A) (k : A -> M B) (w w' : world)
  (e : exn) :
  m w = (Raise e, w') -> bind m k w = (Raise e, w').
Proof. unfold bind. now intros ->. Qed.

Lemma bind_inv {A B : Type} (m : M A) (k : A -> M B) (w : world) (b : B) :
  fst (bind m k w) = Ok b ->
  exists a w', m w = (Ok a, w') /\ fst (k a w') = Ok b.
Proof.
  unfold bind. destruct (m w) as [[a|e] w']; simpl.
  - intros Hk. now exists a, w'.
  - discriminate.
Qed.

(** *** Rules for [runs] *)

Lemma runs_weaken {A : Type} (m : M A) (Q Q' : result A -> list event -> Prop) :
  runs m Q -> (forall r evs, Q r evs -> Q' r evs) -> runs m Q'.
Proof.
  intros Hm HQ w. destruct (Hm w) as [evs [Ht Hq]]. exists evs. auto.
Qed.

Lemma runs_ret {A : Type} (a : A) (Q : result A -> list event -> Prop) :
  Q (Ok a) [] -> runs (ret a) Q.
Proof.
  intros HQ w. exists []. simpl. now rewrite app_nil_r.
Qed.

Lemma runs_call {A : Type} (r : result A)
  (Q : result A -> list event -> Prop) :
  Q r [] -> runs (call r) Q.
Proof.
  intros HQ w. exists []. simpl. now rewrite app_nil_r.
Qed.

Lemma runs_emit (e : event) (Q : result unit -> list event -> Prop) :
  Q (Ok tt) [e] -> runs (emit e) Q.
Proof.
  intros HQ w. exists [e]. simpl. auto.
Qed.

Lemma runs_bind {A B : Type} (m : M A) (k : A -> M B)
  (Q1 : result A -> list event -> Prop)
  (Q : result B -> list event -> Prop) :
  runs m Q1 ->
  (forall a evs1, Q1 (Ok a) evs1 ->
                  runs (k a) (fun r evs2 => Q r (evs1 ++ evs2))) ->
  (forall e evs1, Q1 (Raise e) evs1 -> Q (Raise e) evs1) ->
  runs (bind m k) Q.
Proof.
  intros Hm Hk He w. destruct (Hm w) as [evs1 [Ht1 Hq1]].
  unfold bind. destruct (m w) as [[a|e] w1]; simpl in *.
  - destruct (Hk a evs1 Hq1 w1) as [evs2 [Ht2 Hq2]].
    exists (evs1 ++ evs2). split; [|exact Hq2].
    now rewrite Ht2, Ht1, app_assoc.
  - exists evs1. split; [exact Ht1 | now apply He].
Qed.

Lemma runs_try_except {A : Type} (body : M A) (handler : exn -> M A)
  (Q1 Q : result A -> list event -> Prop) :
  runs body Q1 ->
  (forall a evs, Q1 (Ok a) evs -> Q (Ok a) evs) ->
  (forall e evs1, Q1 (Raise e) evs1 ->
                  runs (handler e) (fun r evs2 => Q r (evs1 ++ evs2))) ->
  runs (try_except body handler) Q.
Proof.
  intros Hb Hok Hh w. destruct (Hb w) as [evs1 [Ht1 Hq1]].
  unfold try_except. destruct (body w) as [[a|e] w1]; simpl in *.
  - exists evs1. split; [exact Ht1 | now apply Hok].
  - destruct (Hh e evs1 Hq1 w1) as [evs2 [Ht2 Hq2]].
    exists (evs1 ++ evs2). split; [|exact Hq2].
    now rewrite Ht2, Ht1, app_assoc.
Qed.

Lemma runs_time_sleep (Q : result unit -> list event -> Prop) :
  Q (Ok tt) [EvSleep] -> runs time_sleep Q.
Proof.
  intros HQ w. exists [EvSleep]. simpl. auto.
Qed.

Lemma runs_datetime_now (Q : result str -> list event -> Prop) :
  (forall s, Q (Ok s) []) -> runs datetime_now Q.
Proof.
  intros HQ w. exists []. simpl. rewrite app_nil_r. auto.
Qed.

Lemma runs_randbelow (n : N) (Q : result N -> list event -> Prop) :
  randbelow_in_range -> 0 < n ->
  (forall k, k < n -> Q (Ok k) []) -> runs (random_randbelow n) Q.
Proof.
  intros Hr Hn HQ w. exists []. unfold random_randbelow.
  specialize (Hr n (w_rng w) Hn).
  destruct (randbelow n (w_rng w)) as [k g]. simpl in *.
  rewrite app_nil_r. auto.
Qed.

(** *** Rules for [blind] and [related] *)

Lemma blind_ret {A : Type} (a : A) : blind (ret a).
Proof. intros w1 w2. reflexivity. Qed.

Lemma blind_call {A : Type} (r : result A) : blind (call r).
Proof. intros w1 w2. reflexivity. Qed.

Lemma blind_emit (e : event) : blind (emit e).
Proof. intros w1 w2. reflexivity. Qed.

Lemma blind_bind {A B : Type} (m : M A) (k : A -> M B) :
  blind m -> (forall a, blind (k a)) -> blind (bind m k).
Proof.
  intros Hm Hk w1 w2. specialize (Hm w1 w2). unfold bind.
  destruct (m w1) as [[a1|e1] w1'], (m w2) as [[a2|e2] w2']; simpl in *;
    try discriminate.
  - injection Hm as ->. apply Hk.
  - now injection Hm as ->.
Qed.

Lemma blind_try_except {A : Type} (body : M A) (handler : exn -> M A) :
  blind body -> (forall e, blind (handler e)) ->
  blind (try_except body handler).
Proof.
  intros Hb Hh w1 w2. specialize (Hb w1 w2). unfold try_except.
  destruct (body w1) as [[a1|e1] w1'], (body w2) as [[a2|e2] w2']; simpl in *;
    try discriminate.
  - exact Hb.
  - injection Hb as ->. apply Hh.
Qed.

Lemma blind_related {A : Type} (m : M A) : blind m -> related m m eq.
Proof.
  intros Hm w1 w2 a b H1 H2. specialize (Hm w1 w2).
  rewrite H1, H2 in Hm. now injection Hm.
Qed.

Lemma related_any {A : Type} (m1 m2 : M A) :
  related m1 m2 (fun _ _ => True).
Proof. intros w1 w2 a b _ _. exact I. Qed.

Lemma related_ret {A : Type} (a b : A) (R : A -> A -> Prop) :
  R a b -> related (ret a) (ret b) R.
Proof.
  intros HR w1 w2 x y Hx Hy. simpl in *.
  injection Hx as <-. injection Hy as <-. exact HR.
Qed.

Lemma related_bind {A B : Type} (m1 m2 : M A) (k1 k2 : A -> M B)
  (R1 : A -> A -> Prop) (R : B -> B -> Prop) :
  related m1 m2 R1 ->
  (forall a b, R1 a b -> related (k1 a) (k2 b) R) ->
  related (bind m1 k1) (bind m2 k2) R.
Proof.
  intros Hm Hk w1 w2 x y Hx Hy.
  apply bind_inv in Hx as [a [w1' [Ha Hx]]].
  apply bind_inv in Hy as [b [w2' [Hb Hy]]].
  assert (HR : R1 a b).
  { apply (Hm w1 w2); [now rewrite Ha | now rewrite Hb]. }
  exact (Hk a b HR w1' w2' x y Hx Hy).
Qed.

End MonadFacts.

(** ** The classifier *)

Section ClassifierFacts.
Context {U : UnicodeData} {H : Host}.

Lemma first_match_run (d : list (str * list str)) (t : str) (w : world) :
  exists l evs,
    first_match d t w = (Ok l, add_events w evs) /\
    (l = [] \/ In l (map fst d)) /\
    forallb is_scan evs = true.
Proof.
  revert w. induction d as [|[label keywords] rest IH]; intros w.
  - exists [], []. simpl. rewrite add_events_nil. auto.
  - cbn [first_match]. rewrite (bind_ok _ _ _ _ _ (emit_run _ w)).
    destruct (any_in keywords t).
    + exists label, [EvScan label]. simpl. auto.
    + destruct (IH (add_events w [EvScan label])) as [l [evs [Hr [Hl He]]]].
      exists l, (EvScan label :: evs). rewrite Hr, add_events_app.
      simpl. tauto.
Qed.

(** The loop stops at the first label one of whose keywords occurs. *)
Lemma first_match_hit (pre post : list (str * list str)) (C : str)
  (kws : list str) (t : str) (w : world) :
  (forall l ks, In (l, ks) pre -> any_in ks t = false) ->
  any_in kws t = true ->
  exists evs, first_match (pre ++ (C, kws) :: post) t w
              = (Ok C, add_events w evs).
Proof.
  revert w. induction pre as [|[label keywords] pre IH]; intros w Hpre Hk.
  - cbn [app first_match]. rewrite (bind_ok _ _ _ _ _ (emit_run _ w)), Hk.
    now exists [EvScan C].
  - cbn [app first_match]. rewrite (bind_ok _ _ _ _ _ (emit_run _ w)).
    rewrite (Hpre label keywords) by (left; reflexivity).
    destruct (IH (add_events w [EvScan label])) as [evs Hr]; [|exact Hk|].
    + intros l ks Hin. apply (Hpre l ks). now right.
    + exists (EvScan label :: evs). now rewrite Hr, add_events_app.
Qed.

(** After the call is recorded, a non-empty text is matched against the
    industry dictionary and then against the objective dictionary. *)
Lemma extract_keywords_nonempty (text : str) (w : world) :
  truthy text = true ->
  extract_keywords text w
  = bind (first_match industry_keywords (lower text))
      (fun industry =>
         bind (first_match objective_keywords (lower text))
           (fun objective => ret (industry, objective)))
      (add_events w [EvExtractKeywords text]).
Proof.
  intros Ht. unfold extract_keywords.
  rewrite (bind_ok _ _ _ _ _ (emit_run _ w)), Ht. reflexivity.
Qed.

Lemma extract_keywords_empty (w : world) :
  extract_keywords [] w = (Ok ([], []), add_events w [EvExtractKeywords []]).
Proof. reflexivity. Qed.

(** The classifier always returns a pair of labels, each empty or a key of
    its dictionary; it records its call and the labels it tested. *)
Lemma extract_keywords_run (text : str) (w : world) :
  exists industry objective evs,
    extract_keywords text w
    = (Ok (industry, objective),
       add_events w (EvExtractKeywords text :: evs)) /\
    (industry = [] \/ In industry (map fst industry_keywords)) /\
    (objective = [] \/ In objective (map fst objective_keywords)) /\
    forallb is_scan evs = true.
Proof.
  destruct text as [|c text'] eqn:Et.
  - exists [], [], []. rewrite extract_keywords_empty. auto.
  - rewrite extract_keywords_nonempty by reflexivity. rewrite <- Et.
    set (w0 := add_events w [EvExtractKeywords text]).
    destruct (first_match_run industry_keywords (lower text) w0)
      as [i [evs1 [Hi [Hli He1]]]].
    rewrite (bind_ok _ _ _ _ _ Hi).
    destruct (first_match_run objective_keywords (lower text)
                (add_events w0 evs1)) as [o [evs2 [Ho [Hlo He2]]]].
    rewrite (bind_ok _ _ _ _ _ Ho).
    exists i, o, (evs1 ++ evs2). unfold ret, w0.
    rewrite !add_events_app. simpl. rewrite forallb_app, He1, He2. auto.
Qed.

(** Every trigger of the two dictionaries is a non-empty word. *)
Lemma dictionary_words_nonempty (d : list (str * list str))
  (pre post : list (str * list str)) (C : str) (kws : list str) :
  forallb (fun entry => forallb truthy (snd entry)) d = true ->
  d = pre ++ (C, kws) :: post ->
  forallb truthy kws = true.
Proof.
  intros Hd ->. rewrite forallb_app in Hd.
  apply andb_true_iff in Hd as [_ Hd]. simpl in Hd.
  now apply andb_true_iff in Hd as [Hd _].
Qed.

Lemma trigger_needs_text (kws : list str) (text : str) :
  forallb truthy kws = true ->
  any_in kws (lower text) = true -> truthy text = true.
Proof.
  intros Hk Ha. destruct text; [|reflexivity].
  rewrite lower_nil, any_in_nil in Ha by assumption. discriminate.
Qed.

(** C3.  The classifier is first-match-wins over the declared label order.
    If the lower-cased text contains a trigger of the category [C] of the
    industry (or objective) dictionary and no trigger of a category declared
    before [C], the industry (or objective) label returned is [C].  For every
    text one industry label and one objective label are returned, each the
    empty string or a key of its dictionary. *)
Theorem first_match_wins (text : str) (w : world) :
  (forall pre C kws post,
      industry_keywords = pre ++ (C, kws) :: post ->
      any_in kws (lower text) = true ->
      (forall l ks, In (l, ks) pre -> any_in ks (lower text) = false) ->
      exists objective,
        fst (extract_keywords text w) = Ok (C, objective)) /\
  (forall pre C kws post,
      objective_keywords = pre ++ (C, kws) :: post ->
      any_in kws (lower text) = true ->
      (forall l ks, In (l, ks) pre -> any_in ks (lower text) = false) ->
      exists industry,
        fst (extract_keywords text w) = Ok (industry, C)) /\
  (exists industry objective,
      fst (extract_keywords text w) = Ok (industry, objective) /\
      (industry = [] \/ In industry (map fst industry_keywords)) /\
      (objective = [] \/ In objective (map fst objective_keywords))).
Proof.
  split; [|split].
  - intros pre C kws post Hd Hk Hpre.
    assert (Ht : truthy text = true).
    { apply (trigger_needs_text kws); [|exact Hk].
      now apply (dictionary_words_nonempty industry_keywords pre post C). }
    rewrite extract_keywords_nonempty by exact Ht. rewrite Hd.
    set (w0 := add_events w [EvExtractKeywords text]).
    destruct (first_match_hit pre post C kws (lower text) w0 Hpre Hk)
      as [evs1 Hi].
    rewrite (bind_ok _ _ _ _ _ Hi).
    destruct (first_match_run objective_keywords (lower text)
                (add_events w0 evs1)) as [o [evs2 [Ho _]]].
    rewrite (bind_ok _ _ _ _ _ Ho). now exists o.
  - intros pre C kws post Hd Hk Hpre.
    assert (Ht : truthy text = true).
    { apply (trigger_needs_text kws); [|exact Hk].
      now apply (dictionary_words_nonempty objective_keywords pre post C). }
    rewrite extract_keywords_nonempty by exact Ht.
    set (w0 := add_events w [EvExtractKeywords text]).
    destruct (first_match_run industry_keywords (lower text) w0)
      as [i [evs1 [Hi _]]].
    rewrite (bind_ok _ _ _ _ _ Hi). rewrite Hd.
    destruct (first_match_hit pre post C kws (lower text)
                (add_events w0 evs1) Hpre Hk) as [evs2 Ho].
    rewrite (bind_ok _ _ _ _ _ Ho). now exists i.
  - destruct (extract_keywords_run text w) as [i [o [evs [Hr [Hi [Ho _]]]]]].
    exists i, o. rewrite Hr. auto.
Qed.

(** C7.  On the empty string the classifier returns the pair of empty labels
    at once: the generator and the clock are untouched and the only event
    recorded is the call itself, no label of either dictionary is tested. *)
Theorem empty_text_is_not_scanned (w : world) :
  extract_keywords [] w = (Ok ([], []), add_events w [EvExtractKeywords []]) /\
  existsb is_scan
    (skipn (List.length (w_trace w)) (w_trace (snd (extract_keywords [] w))))
  = false.
Proof.
  split; [reflexivity|].
  rewrite extract_keywords_empty. cbn [snd add_events w_trace].
  rewrite skipn_app, skipn_all, Nat.sub_diag. reflexivity.
Qed.

(** By contrast a non-empty text has the first label of the industry
    dictionary tested right after the call. *)
Lemma first_match_head (label : str) (keywords : list str)
  (rest : list (str * list str)) (t : str) (w : world) :
  exists l evs,
    first_match ((label, keywords) :: rest) t w
    = (Ok l, add_events w (EvScan label :: evs)).
Proof.
  cbn [first_match]. rewrite (bind_ok _ _ _ _ _ (emit_run _ w)).
  destruct (any_in keywords t).
  - now exists label, [].
  - destruct (first_match_run rest t (add_events w [EvScan label]))
      as [l [evs [Hr _]]].
    exists l, evs. now rewrite Hr, add_events_app.
Qed.

Lemma nonempty_text_is_scanned (text : str) (w : world) :
  truthy text = true ->
  exists evs,
    w_trace (snd (extract_keywords text w))
    = w_trace w ++ EvExtractKeywords text :: EvScan (u "制造") :: evs.
Proof.
  intros Ht. rewrite extract_keywords_nonempty by exact Ht.
  set (w0 := add_events w [EvExtractKeywords text]).
  unfold industry_keywords.
  destruct (first_match_head (u "制造")
              [u "制造"; u "生产"; u "manufacture"; u "production"]
              (tl industry_keywords) (lower text) w0) as [i [evs1 Hi]].
  unfold industry_keywords in Hi. cbn [tl] in Hi.
  rewrite (bind_ok _ _ _ _ _ Hi).
  destruct (first_match_run objective_keywords (lower text)
              (add_events w0 (EvScan (u "制造") :: evs1)))
    as [o [evs2 [Ho _]]].
  rewrite (bind_ok _ _ _ _ _ Ho).
  exists (evs1 ++ evs2). unfold ret, w0. cbn [snd].
  rewrite !add_events_app. cbn [add_events w_trace app]. reflexivity.
Qed.

(** C4 (as amended).  On a Python whose case table keeps the Chinese
    ideographs and the full-width comma, the classifier applied to the
    example text returns the pair ("制造", "物料计划"); on that pair both
    copies of the extended rule set return their MRP record, whose title is
    "MRP物料需求计划方法论", and the minimal rule set, whose material rule
    also asks for an inventory word, returns its fallback record. *)
Theorem manufacturing_example (w : world) :
  (forall c, caseless c = true -> keeps c) ->
  fst (extract_keywords example_text w) = Ok (u "制造", u "物料计划") /\
  Intergration.get_procurement_advice (u "制造") (u "物料计划")
  = Intergration.mrp /\
  fst Intergration.mrp = u "MRP物料需求计划方法论" /\
  Platform.get_procurement_advice_with_flow (u "制造") (u "物料计划")
  = Platform.mrp /\
  fst (fst Platform.mrp) = u "MRP物料需求计划方法论" /\
  MethodologyChosen.get_procurement_advice (u "制造") (u "物料计划")
  = MethodologyChosen.fallback /\
  fst MethodologyChosen.fallback = u "采购方法论综合评估法".
Proof.
  intros Hk.
  assert (Ht : lower example_text = example_text)
    by (apply caseless_keeps; [exact Hk | reflexivity]).
  assert (Hi : lower (u "制造") = u "制造")
    by (apply caseless_keeps; [exact Hk | reflexivity]).
  assert (Ho : lower (u "物料计划") = u "物料计划")
    by (apply caseless_keeps; [exact Hk | reflexivity]).
  split; [|split; [|split; [|split; [|split; [|split]]]]].
  - rewrite extract_keywords_nonempty by reflexivity. rewrite Ht.
    vm_compute. reflexivity.
  - unfold Intergration.get_procurement_advice. rewrite Hi, Ho.
    vm_compute. reflexivity.
  - reflexivity.
  - unfold Platform.get_procurement_advice_with_flow. rewrite Hi, Ho.
    vm_compute. reflexivity.
  - reflexivity.
  - unfold MethodologyChosen.get_procurement_advice. rewrite Hi, Ho.
    vm_compute. reflexivity.
  - reflexivity.
Qed.

End ClassifierFacts.

Lemma basic_latin_keeps_caseless (c : N) :
  caseless c = true -> @keeps basic_latin c.
Proof.
  unfold caseless, keeps. intros Hc before after. simpl.
  destruct ((65 <=? c) && (c <=? 90)) eqn:E; [|reflexivity].
  apply andb_true_iff in E as [_ E]. apply N.leb_le in E.
  apply orb_true_iff in Hc as [Hc|Hc].
  - apply andb_true_iff in Hc as [Hc _]. apply N.leb_le in Hc. lia.
  - apply N.eqb_eq in Hc. lia.
Qed.

(** C3 at the text "retail bank: reduce cost": "零售" is declared before
    "金融", and "成本控制" is the only objective category with a trigger in
    the text. *)
Lemma first_match_wins_witness :
  (exists objective,
      fst (@extract_keywords basic_latin example_host
             (u "retail bank: reduce cost") (example_world 0))
      = Ok (u "零售", objective)) /\
  (exists industry,
      fst (@extract_keywords basic_latin example_host
             (u "retail bank: reduce cost") (example_world 0))
      = Ok (industry, u "成本控制")).
Proof.
  destruct (@first_match_wins basic_latin example_host
              (u "retail bank: reduce cost") (example_world 0))
    as [HI [HO _]].
  split.
  - apply (HI (firstn 1 industry_keywords) (u "零售")
              [u "零售"; u "retail"; u "distribution"; u "销售"]
              (skipn 2 industry_keywords)).
    + reflexivity.
    + vm_compute; reflexivity.
    + intros l ks [E|[]]. injection E as <- <-. vm_compute; reflexivity.
  - apply (HO (firstn 4 objective_keywords) (u "成本控制")
              [u "成本"; u "节约"; u "降低"; u "control"; u "reduce"]
              (skipn 5 objective_keywords)).
    + reflexivity.
    + vm_compute; reflexivity.
    + intros l ks [E|[E|[E|[E|[]]]]]; injection E as <- <-;
        vm_compute; reflexivity.
Defined.

(** C4 (counterexample).  On the pair ("制造", "物料计划") the minimal rule
    set returns its fallback record, not an MRP record. *)
Lemma minimal_rule_set_on_manufacturing_example :
  @MethodologyChosen.get_procurement_advice basic_latin
     (u "制造") (u "物料计划") = MethodologyChosen.fallback /\
  fst MethodologyChosen.fallback <> u "MRP物料需求计划方法论" /\
  MethodologyChosen.fallback <> MethodologyChosen.mrp.
Proof.
  split; [vm_compute; reflexivity|].
  split; [apply str_neq; vm_compute; reflexivity | differ_by_title].
Qed.

(** C4 (as amended) on the Basic Latin table. *)
Lemma manufacturing_example_witness :
  fst (@extract_keywords basic_latin example_host
         example_text (example_world 0)) = Ok (u "制造", u "物料计划") /\
  @Intergration.get_procurement_advice basic_latin (u "制造") (u "物料计划")
  = Intergration.mrp /\
  fst Intergration.mrp = u "MRP物料需求计划方法论" /\
  @Platform.get_procurement_advice_with_flow basic_latin
     (u "制造") (u "物料计划") = Platform.mrp /\
  fst (fst Platform.mrp) = u "MRP物料需求计划方法论" /\
  @MethodologyChosen.get_procurement_advice basic_latin
     (u "制造") (u "物料计划") = MethodologyChosen.fallback /\
  fst MethodologyChosen.fallback = u "采购方法论综合评估法".
Proof.
  apply (@manufacturing_example basic_latin example_host (example_world 0)).
  exact basic_latin_keeps_caseless.
Defined.

(** ** The extractors *)

Section ExtractorFacts.
Context {U : UnicodeData} {H : Host}.




(** [try: ... except Exception as e: print(...); return ""] around a body
    that records nothing: the text of the body, or the empty text once the
    message is printed, or the exception the standard output raises. *)
Lemma try_except_print (body : M str) (prefix : str) (w : world) :
  snd (body w) = w ->
  try_except body
    (fun e => bind (print (prefix ++ exn_str e)) (fun _ => ret [])) w
  = match fst (body w) with
    | Ok t => (Ok t, w)
    | Raise e =>
      match stdout_write (prefix ++ exn_str e) with
      | Ok _ => (Ok [], add_events w [EvPrint (prefix ++ exn_str e)])
      | Raise e' => (Raise e', w)
      end
    end.
Proof.
  unfold try_except. destruct (body w) as [[t|e] w']; cbn [fst snd];
    intros ->; [reflexivity|].
  unfold print, bind, call.
  destruct (stdout_write (prefix ++ exn_str e)) as [[]|e']; reflexivity.
Qed.


Lemma extract_text_from_docx_run (path : str) (w : world) :
  extract_text_from_docx path w
  = match Document path with
    | Ok paragraphs => (Ok (join (u "
") paragraphs), w)
    | Raise e =>
      match stdout_write (u "提取Word内容出错: " ++ exn_str e) with
      | Ok _ =>
        (Ok [], add_events w [EvPrint (u "提取Word内容出错: " ++ exn_str e)])
      | Raise e' => (Raise e', w)
      end
    end.
Proof.
  unfold extract_text_from_docx. rewrite try_except_print.
  - unfold bind, call, ret. now destruct (Document path).
  - unfold bind, call, ret. now destruct (Document path).
Qed.




End ExtractorFacts.

(** ** The file analysis *)

Section AnalysisFacts.
Context {U : UnicodeData} {H : Host}.

(** *** Computations that do not call the classifier *)

Lemma skips_ret {A : Type} (a : A) (P : A -> Prop) :
  P a -> skips_classifier (ret a) P.
Proof.
  intros HP. apply runs_ret. split; [now exists a | reflexivity].
Qed.

Lemma skips_bind {A B : Type} (m : M A) (k : A -> M B)
  (PA : A -> Prop) (P : B -> Prop) :
  skips_classifier m PA ->
  (forall a, PA a -> skips_classifier (k a) P) ->
  skips_classifier (bind m k) P.
Proof.
  intros Hm Hk. apply (runs_bind _ _ _ _ Hm).
  - intros a evs1 [[a' [E Ha]] He1]. injection E as <-.
    apply (runs_weaken _ _ _ (Hk a Ha)).
    intros r evs2 [Hr He2]. split; [exact Hr|].
    now rewrite existsb_app, He1, He2.
  - intros e evs1 [[a [E _]] _]. discriminate.
Qed.

Lemma skips_weaken {A : Type} (m : M A) (P P' : A -> Prop) :
  skips_classifier m P -> (forall a, P a -> P' a) -> skips_classifier m P'.
Proof.
  intros Hm HP. apply (runs_weaken _ _ _ Hm).
  intros r evs [[a [E Ha]] He]. split; [|exact He].
  exists a. auto.
Qed.

Lemma skips_emit (e : event) :
  is_extract_keywords e = false -> skips_classifier (emit e) (fun _ => True).
Proof.
  intros He. apply runs_emit. split; [now exists tt|].
  simpl. now rewrite He.
Qed.

Lemma skips_time_sleep : skips_classifier time_sleep (fun _ => True).
Proof.
  apply runs_time_sleep. split; [now exists tt | reflexivity].
Qed.

Lemma skips_datetime_now : skips_classifier datetime_now (fun _ => True).
Proof.
  apply runs_datetime_now. intros s. split; [now exists s | reflexivity].
Qed.

Lemma skips_progress_loop (n : nat) :
  skips_classifier (progress_loop n) (fun _ => True).
Proof.
  induction n as [|n IH]; cbn [progress_loop].
  - now apply skips_ret.
  - apply (skips_bind _ _ _ _ skips_time_sleep). intros _ _.
    apply (skips_bind _ _ (fun _ => True)); [now apply skips_emit|].
    intros _ _. exact IH.
Qed.

Lemma skips_randbelow (n : N) :
  randbelow_in_range -> 0 < n ->
  skips_classifier (random_randbelow n) (fun k => k < n).
Proof.
  intros Hr Hn. apply runs_randbelow; [exact Hr | exact Hn|].
  intros k Hk. split; [now exists k | reflexivity].
Qed.

Lemma skips_randint (a b : N) :
  randbelow_in_range ->
  skips_classifier (random_randint a b) (fun _ => True).
Proof.
  intros Hr. unfold random_randint.
  apply (skips_bind _ _ _ _ (skips_randbelow (b - a + 1) Hr ltac:(lia))).
  intros k _. now apply skips_ret.
Qed.

Lemma skips_choice (seq : list str) :
  randbelow_in_range -> seq <> [] ->
  skips_classifier (random_choice seq) (fun _ => True).
Proof.
  intros Hr Hs. unfold random_choice.
  assert (Hn : 0 < N.of_nat (List.length seq)).
  { destruct seq; [contradiction | simpl; lia]. }
  apply (skips_bind _ _ _ _ (skips_randbelow _ Hr Hn)).
  intros k Hk. destruct (nth_error seq (N.to_nat k)) as [x|] eqn:E.
  - now apply skips_ret.
  - apply nth_error_None in E. lia.
Qed.





(** *** Computations whose outcome ignores the world *)

Lemma blind_first_match (d : list (str * list str)) (t : str) :
  blind (first_match d t).
Proof.
  induction d as [|[label keywords] rest IH]; cbn [first_match].
  - apply blind_ret.
  - apply blind_bind; [apply blind_emit|]. intros _.
    destruct (any_in keywords t); [apply blind_ret | exact IH].
Qed.

Lemma blind_extract_keywords (text : str) : blind (extract_keywords text).
Proof.
  unfold extract_keywords. apply blind_bind; [apply blind_emit|]. intros _.
  destruct (negb (truthy text)); [apply blind_ret|].
  apply blind_bind; [apply blind_first_match|]. intros i.
  apply blind_bind; [apply blind_first_match|]. intros o. apply blind_ret.
Qed.

Lemma blind_for_each {A B : Type} (f : A -> M B) (xs : list A) :
  (forall x, blind (f x)) -> blind (for_each xs f).
Proof.
  intros Hf. induction xs as [|x xs IH]; cbn [for_each].
  - apply blind_ret.
  - apply blind_bind; [apply Hf|]. intros y.
    apply blind_bind; [exact IH|]. intros ys. apply blind_ret.
Qed.

Lemma blind_print_return (line : str) :
  blind (bind (print line) (fun _ => ret (@nil N))).
Proof.
  apply blind_bind; [|intros _; apply blind_ret].
  apply blind_bind; [apply blind_call | intros _; apply blind_emit].
Qed.

Lemma blind_extract_text_from_docx (path : str) :
  blind (extract_text_from_docx path).
Proof.
  apply blind_try_except; [|intros e; apply blind_print_return].
  apply blind_bind; [apply blind_call | intros ps; apply blind_ret].
Qed.

Lemma blind_extract_text_from_excel (path : str) :
  blind (extract_text_from_excel path).
Proof.
  apply blind_try_except; [|intros e; apply blind_print_return].
  apply blind_bind; [apply blind_call|]. intros xls.
  apply blind_bind; [|intros full_text; apply blind_ret].
  apply blind_for_each. intros sheet.
  apply blind_bind; [apply blind_call | intros df; apply blind_ret].
Qed.

Lemma blind_extract_text_from_csv (path : str) :
  blind (extract_text_from_csv path).
Proof.
  apply blind_try_except; [|intros e; apply blind_print_return].
  apply blind_bind; [apply blind_call | intros df; apply blind_ret].
Qed.

Lemma blind_extraction_step (path : str) :
  blind
    (if endswith (lower (basename path)) (u ".docx") then
       bind (extract_text_from_docx path) (fun t => ret (t, u "Word文档"))
     else if endswith_any (lower (basename path)) [u ".xlsx"; u ".xls"] then
       bind (extract_text_from_excel path) (fun t => ret (t, u "Excel文档"))
     else if endswith (lower (basename path)) (u ".csv") then
       bind (extract_text_from_csv path) (fun t => ret (t, u "CSV文件"))
     else ret (u "暂不支持该类型文件的内容提取", u "其他文件")).
Proof.
  destruct (endswith (lower (basename path)) (u ".docx")).
  - apply blind_bind; [apply blind_extract_text_from_docx|].
    intros t. apply blind_ret.
  - destruct (endswith_any (lower (basename path)) [u ".xlsx"; u ".xls"]).
    + apply blind_bind; [apply blind_extract_text_from_excel|].
      intros t. apply blind_ret.
    + destruct (endswith (lower (basename path)) (u ".csv")).
      * apply blind_bind; [apply blind_extract_text_from_csv|].
        intros t. apply blind_ret.
      * apply blind_ret.
Qed.

Lemma app_tail (a rest h s : str) :
  rest = h ++ s -> a ++ rest = (a ++ h) ++ s.
Proof. intros ->. apply app_assoc. Qed.

(** C8.  The recommendation is deterministic, and no randomness reaches it.
    The record either recommender returns is fixed by the two inputs as the
    rules read them, lower-cased and stripped: inputs that are equal, or
    equal after that normalisation, give the same title, the same rationale
    and, in the diagram variant, the same diagram.  And the random draws of
    the report generator do not reach the recommendation: any two runs of
    [analyze_file] on the same file and inputs, from worlds that may differ
    in generator state, clock and trace, return the same labels and the same
    recommendation section, the one the recommender computes from the
    labels; in the diagram variant the section holds the title, the
    rationale and the flow chart of [get_procurement_advice_with_flow]. *)
Theorem advice_ignores_randomness
  (path industry_input objective_input : str) :
  truthy path = true ->
  related (analyze_file (Some path) industry_input objective_input)
          (analyze_file (Some path) industry_input objective_input)
          same_advice /\
  related (PlatformApp.analyze_file (Some path) industry_input objective_input)
          (PlatformApp.analyze_file (Some path) industry_input objective_input)
          same_advice_with_flow /\
  (forall industry objective industry' objective',
      strip (lower industry) = strip (lower industry') ->
      strip (lower objective) = strip (lower objective') ->
      Intergration.get_procurement_advice industry objective
      = Intergration.get_procurement_advice industry' objective' /\
      Platform.get_procurement_advice_with_flow industry objective
      = Platform.get_procurement_advice_with_flow industry' objective').
Proof.
  intros Ht. split; [|split].
  - unfold analyze_file. rewrite Ht.
    apply (related_bind _ _ _ _ eq); [apply blind_related, blind_call|].
    intros size ? <-.
    apply (related_bind _ _ _ _ eq);
      [apply blind_related, blind_extraction_step|].
    intros [text ft] ? <-.
    apply (related_bind _ _ _ _ eq).
    { apply blind_related.
      destruct (truthy text && negb (str_eqb ft (u "其他文件")));
        [apply blind_extract_keywords | apply blind_ret]. }
    intros [ei eo] ? <-.
    apply (related_bind _ _ _ _ (fun _ _ => True)); [apply related_any|].
    intros _ _ _.
    apply (related_bind _ _ _ _ (fun _ _ => True)); [apply related_any|].
    intros now1 now2 _.
    apply (related_bind _ _ _ _ (fun _ _ => True)); [apply related_any|].
    intros dp1 dp2 _.
    apply (related_bind _ _ _ _ (fun _ _ => True)); [apply related_any|].
    intros tr1 tr2 _.
    apply (related_bind _ _ _ _ (fun _ _ => True)); [apply related_any|].
    intros c1 c2 _.
    destruct (Intergration.get_procurement_advice
                (if truthy ei then ei else industry_input)
                (if truthy eo then eo else objective_input))
      as [title content] eqn:E.
    apply related_ret. unfold same_advice. rewrite E.
    unfold advice_section. cbn [fst snd].
    split; [reflexivity|]. split; [reflexivity|]. split; [reflexivity|].
    eexists. eexists. split; reflexivity.
  - unfold PlatformApp.analyze_file. rewrite Ht.
    apply (related_bind _ _ _ _ eq); [apply blind_related, blind_call|].
    intros size ? <-.
    apply (related_bind _ _ _ _ eq);
      [apply blind_related, blind_extraction_step|].
    intros [text ft] ? <-.
    apply (related_bind _ _ _ _ eq).
    { apply blind_related.
      destruct (truthy text && negb (str_eqb ft (u "其他文件")));
        [apply blind_extract_keywords | apply blind_ret]. }
    intros [ei eo] ? <-.
    apply (related_bind _ _ _ _ (fun _ _ => True)); [apply related_any|].
    intros _ _ _. cbv zeta.
    destruct (Platform.get_procurement_advice_with_flow
                (if truthy ei then ei else industry_input)
                (if truthy eo then eo else objective_input))
      as [[title content] flow] eqn:E.
    apply (related_bind _ _ _ _ (fun _ _ => True)); [apply related_any|].
    intros now1 now2 _.
    apply (related_bind _ _ _ _ (fun _ _ => True)); [apply related_any|].
    intros dp1 dp2 _.
    apply (related_bind _ _ _ _ (fun _ _ => True)); [apply related_any|].
    intros tr1 tr2 _.
    apply (related_bind _ _ _ _ (fun _ _ => True)); [apply related_any|].
    intros c1 c2 _.
    apply related_ret. unfold same_advice_with_flow. rewrite E.
    unfold flow_advice_section.
    split; [reflexivity|]. split; [reflexivity|]. split; [reflexivity|].
    eexists. eexists.
    split; do 18 apply app_tail; symmetry; apply app_nil_l.
  - intros i o i' o' Hi Ho.
    unfold Intergration.get_procurement_advice,
      Platform.get_procurement_advice_with_flow.
    cbv zeta. rewrite Hi, Ho. split; reflexivity.
Qed.

End AnalysisFacts.

Lemma example_host_in_range : @randbelow_in_range example_host.
Proof.
  intros n g Hn. simpl. apply N.mod_lt. lia.
Qed.




(** C8 on the example host at the Word document "notes/plan.docx", and at
    two spellings of the same industry and objective. *)
Lemma advice_ignores_randomness_witness :
  @related example_host _
    (@analyze_file basic_latin example_host
       (Some (u "notes/plan.docx")) [] [])
    (@analyze_file basic_latin example_host
       (Some (u "notes/plan.docx")) [] [])
    (@same_advice basic_latin) /\
  @related example_host _
    (@PlatformApp.analyze_file basic_latin example_host
       (Some (u "notes/plan.docx")) [] [])
    (@PlatformApp.analyze_file basic_latin example_host
       (Some (u "notes/plan.docx")) [] [])
    (@same_advice_with_flow basic_latin) /\
  @Intergration.get_procurement_advice basic_latin
     (u " Manufacture") (u "MRP ")
  = @Intergration.get_procurement_advice basic_latin
      (u "manufacture") (u "mrp") /\
  @Platform.get_procurement_advice_with_flow basic_latin
     (u " Manufacture") (u "MRP ")
  = @Platform.get_procurement_advice_with_flow basic_latin
      (u "manufacture") (u "mrp").
Proof.
  destruct (@advice_ignores_randomness basic_latin example_host
              (u "notes/plan.docx") [] [] eq_refl) as [H1 [H2 H3]].
  split; [exact H1|]. split; [exact H2|].
  apply H3; vm_compute; reflexivity.
Defined.

(** The two properties are not vacuous on the example host: from the
    generator states 0 and 1 the analysis of "notes/plan.docx" returns two
    different reports with the same labels, and both recommend MRP, in both
    applications. *)
Lemma example_reports_differ :
  exists report0 report1 status,
    fst (@analyze_file basic_latin example_host
           (Some (u "notes/plan.docx")) [] [] (example_world 0))
    = Ok (report0, status, u "制造", u "物料计划") /\
    fst (@analyze_file basic_latin example_host
           (Some (u "notes/plan.docx")) [] [] (example_world 1))
    = Ok (report1, status, u "制造", u "物料计划") /\
    report0 <> report1 /\
    in_str (@advice_section (Intergration.mrp)) report0 = true /\
    in_str (@advice_section (Intergration.mrp)) report1 = true.
Proof.
  eexists. eexists. eexists.
  split; [vm_compute; reflexivity|].
  split; [vm_compute; reflexivity|].
  split; [apply str_neq; vm_compute; reflexivity|].
  split; vm_compute; reflexivity.
Qed.

Lemma example_flow_reports_differ :
  exists report0 report1 status,
    fst (@PlatformApp.analyze_file basic_latin example_host
           (Some (u "notes/plan.docx")) [] [] (example_world 0))
    = Ok (report0, status, u "制造", u "物料计划") /\
    fst (@PlatformApp.analyze_file basic_latin example_host
           (Some (u "notes/plan.docx")) [] [] (example_world 1))
    = Ok (report1, status, u "制造", u "物料计划") /\
    report0 <> report1 /\
    endswith report0 (flow_advice_section Platform.mrp) = true /\
    endswith report1 (flow_advice_section Platform.mrp) = true.
Proof.
  eexists. eexists. eexists.
  split; [vm_compute; reflexivity|].
  split; [vm_compute; reflexivity|].
  split; [apply str_neq; vm_compute; reflexivity|].
  split; vm_compute; reflexivity.
Qed.

(** * Further properties of the code *)

(** ** The three rule tables *)

Ltac bool_clash :=
  match goal with
  | E : true = false |- _ => discriminate E
  | E : false = true |- _ => discriminate E
  end.

Ltac table_case :=
  repeat match goal with
         | |- _ /\ _ => split
         | |- _ <-> _ => split
         end;
  intros;
  repeat match goal with
         | E : _ /\ _ |- _ => destruct E
         end;
  repeat match goal with
         | |- _ /\ _ => split
         end;
  try bool_clash;
  try solve [match goal with |- ?x = ?x => reflexivity end];
  try solve [exfalso;
             match goal with
             | E : _ = _ :> (str * str)%type |- _ => revert E; differ_by_title
             | E : _ = _ :> (str * str * str)%type |- _ =>
               revert E; differ_by_title
             end].

Section RuleTables.
Context {U : UnicodeData}.



(** Each of the six records of [get_procurement_advice] of [intergration.py]
    is returned exactly under the condition of its rule, read on the
    lower-cased inputs: stripping them changes nothing. *)
Theorem intergration_decision_table (industry objective : str) :
  let wp := any_in portfolio_triggers (lower objective) in
  let wc := any_in collaboration_triggers (lower objective) in
  let wm := any_in material_plan_triggers (lower objective)
            && any_in manufacturing_triggers (lower industry) in
  let wt := any_in maintenance_triggers (lower objective) in
  let wr := any_in cost_triggers (lower objective) in
  let advice := Intergration.get_procurement_advice industry objective in
  (advice = Intergration.kraljic <-> wp = true) /\
  (advice = Intergration.vmi <-> wp = false /\ wc = true) /\
  (advice = Intergration.mrp <-> wp = false /\ wc = false /\ wm = true) /\
  (advice = Intergration.mro <->
   wp = false /\ wc = false /\ wm = false /\ wt = true) /\
  (advice = Intergration.tco <->
   wp = false /\ wc = false /\ wm = false /\ wt = false /\ wr = true) /\
  (advice = Intergration.fallback <->
   wp = false /\ wc = false /\ wm = false /\ wt = false /\ wr = false).
Proof.
  cbv zeta. advice_unfold.
  unfold portfolio_triggers, collaboration_triggers, material_plan_triggers,
    manufacturing_triggers, maintenance_triggers, cost_triggers.
  split_words; table_case.
Qed.

(** The same for [get_procurement_advice_with_flow], with its own portfolio
    and material-planning words. *)
Theorem platform_decision_table (industry objective : str) :
  let wp := any_in portfolio_triggers_flow (lower objective) in
  let wc := any_in collaboration_triggers (lower objective) in
  let wm := any_in material_plan_triggers_flow (lower objective)
            && any_in manufacturing_triggers (lower industry) in
  let wt := any_in maintenance_triggers (lower objective) in
  let wr := any_in cost_triggers (lower objective) in
  let advice :=
    Platform.get_procurement_advice_with_flow industry objective in
  (advice = Platform.kraljic <-> wp = true) /\
  (advice = Platform.vmi <-> wp = false /\ wc = true) /\
  (advice = Platform.mrp <-> wp = false /\ wc = false /\ wm = true) /\
  (advice = Platform.mro <->
   wp = false /\ wc = false /\ wm = false /\ wt = true) /\
  (advice = Platform.tco <->
   wp = false /\ wc = false /\ wm = false /\ wt = false /\ wr = true) /\
  (advice = Platform.fallback <->
   wp = false /\ wc = false /\ wm = false /\ wt = false /\ wr = false).
Proof.
  cbv zeta. advice_unfold.
  unfold portfolio_triggers_flow, collaboration_triggers,
    material_plan_triggers_flow, manufacturing_triggers,
    maintenance_triggers, cost_triggers.
  split_words; table_case.
Qed.

(** The industry is read by one rule only.  In the minimal rule set that
    rule is unreachable, so the industry never changes the answer; in the two
    copies of the extended rule set two industries give the same answer
    unless one of them opens the MRP rule. *)
Theorem industry_only_gates_mrp (industry industry' objective : str) :
  MethodologyChosen.get_procurement_advice industry objective
  = MethodologyChosen.get_procurement_advice industry' objective /\
  (Intergration.get_procurement_advice industry objective
   = Intergration.get_procurement_advice industry' objective \/
   Intergration.get_procurement_advice industry objective
   = Intergration.mrp \/
   Intergration.get_procurement_advice industry' objective
   = Intergration.mrp) /\
  (Platform.get_procurement_advice_with_flow industry objective
   = Platform.get_procurement_advice_with_flow industry' objective \/
   Platform.get_procurement_advice_with_flow industry objective
   = Platform.mrp \/
   Platform.get_procurement_advice_with_flow industry' objective
   = Platform.mrp).
Proof.
  split; [|split].
  - unfold MethodologyChosen.get_procurement_advice; cbv zeta.
    split_words; reflexivity.
  - unfold Intergration.get_procurement_advice; cbv zeta.
    split_words;
      match goal with
      | |- ?x = ?x \/ _ => left; reflexivity
      | |- _ \/ ?x = ?x \/ _ => right; left; reflexivity
      | |- _ \/ _ \/ ?x = ?x => right; right; reflexivity
      end.
  - unfold Platform.get_procurement_advice_with_flow; cbv zeta.
    split_words;
      match goal with
      | |- ?x = ?x \/ _ => left; reflexivity
      | |- _ \/ ?x = ?x \/ _ => right; left; reflexivity
      | |- _ \/ _ \/ ?x = ?x => right; right; reflexivity
      end.
Qed.

(** The table of the minimal rule set: four records, each returned exactly
    under the condition of its rule; the industry does not occur in it. *)
Theorem minimal_decision_table (industry objective : str) :
  let wk := any_in portfolio_triggers (lower objective)
            || any_in material_triggers_minimal (lower objective)
               && any_in inventory_triggers_minimal (lower objective) in
  let wc := any_in collaboration_triggers_minimal (lower objective) in
  let wt := any_in maintenance_triggers_minimal (lower objective) in
  let advice :=
    MethodologyChosen.get_procurement_advice industry objective in
  (advice = MethodologyChosen.kraljic <-> wk = true) /\
  (advice = MethodologyChosen.vmi <-> wk = false /\ wc = true) /\
  (advice = MethodologyChosen.mro <->
   wk = false /\ wc = false /\ wt = true) /\
  (advice = MethodologyChosen.fallback <->
   wk = false /\ wc = false /\ wt = false).
Proof.
  cbv zeta. unfold MethodologyChosen.get_procurement_advice; cbv zeta.
  change (any_in collaboration_triggers_minimal (lower objective))
    with (existsb (fun word => in_str word (lower objective))
            ([u "合作"; u "联合"; u "协作"; u "collaboration"; u "joint"]
             ++ [u "供应商管理"; u "联合库存"; u "vmi"])).
  change (any_in maintenance_triggers_minimal (lower objective))
    with (existsb (fun word => in_str word (lower objective))
            ([u "维护"; u "维修"; u "maintenance"; u "repair"]
             ++ [u "间接物料"; u "维护用品"; u "mro"])).
  rewrite !existsb_app.
  change (existsb (fun word => in_str word (lower objective)))
    with (fun ws => any_in ws (lower objective)).
  cbv beta.
  unfold portfolio_triggers, material_triggers_minimal,
    inventory_triggers_minimal.
  split_words; table_case.
Qed.

(** The two copies of the extended rule set differ in three words only: on
    an objective without "categorize", "物料" and "计划" the diagram variant
    returns the title and the description the plain variant returns. *)
Theorem extended_copies_agree (industry objective : str) :
  in_str (u "categorize") (lower objective) = false ->
  in_str (u "物料") (lower objective) = false ->
  in_str (u "计划") (lower objective) = false ->
  fst (Platform.get_procurement_advice_with_flow industry objective)
  = Intergration.get_procurement_advice industry objective.
Proof.
  intros Hc Hm Hp.
  pose proof (in_str_absent (u "物料") (u "物料计划") _ eq_refl Hm) as Hmp.
  assert (Ep : any_in [u "分类"; u "组合"; u "portfolio"; u "categorize"]
                 (lower objective)
               = any_in [u "分类"; u "组合"; u "portfolio"] (lower objective)).
  { cbn [any_in existsb]. rewrite Hc. reflexivity. }
  assert (Em : any_in [u "物料"; u "计划"; u "mrp"; u "生产排期"]
                 (lower objective)
               = any_in [u "物料计划"; u "mrp"; u "生产排期"]
                   (lower objective)).
  { cbn [any_in existsb]. rewrite Hm, Hp, Hmp. reflexivity. }
  advice_unfold. rewrite Ep, Em.
  split_words; vm_compute; reflexivity.
Qed.

End RuleTables.

(** [extended_copies_agree] at the objective "Reduce cost". *)
Lemma extended_copies_agree_witness :
  fst (@Platform.get_procurement_advice_with_flow basic_latin
         (u "retail") (u "Reduce cost"))
  = @Intergration.get_procurement_advice basic_latin
      (u "retail") (u "Reduce cost").
Proof.
  apply (@extended_copies_agree basic_latin (u "retail") (u "Reduce cost"));
    vm_compute; reflexivity.
Defined.

(** ** The classifier, and the recommender behind it *)


Section ClassifierSound.
Context {U : UnicodeData} {H : Host}.

(** What the dictionary loop returns and what it records: on a hit, the
    label of the first entry with a keyword in the text, after testing that
    entry and the ones before it; on a miss, the empty label, after testing
    every entry. *)
Lemma first_match_cases (d : list (str * list str)) (t : str) (w : world) :
  (exists pre C kws post,
      d = pre ++ (C, kws) :: post /\
      any_in kws t = true /\
      (forall l ks, In (l, ks) pre -> any_in ks t = false) /\
      first_match d t w
      = (Ok C, add_events w (map EvScan (map fst pre ++ [C])))) \/
  ((forall l ks, In (l, ks) d -> any_in ks t = false) /\
   first_match d t w = (Ok [], add_events w (map EvScan (map fst d)))).
Proof.
  revert w. induction d as [|[label keywords] rest IH]; intros w.
  - right. split; [intros l ks []|]. simpl. now rewrite add_events_nil.
  - cbn [first_match]. rewrite (bind_ok _ _ _ _ _ (emit_run _ w)).
    destruct (any_in keywords t) eqn:Ek.
    + left. exists [], label, keywords, rest.
      repeat split; auto. intros l ks [].
    + destruct (IH (add_events w [EvScan label]))
        as [[pre [C [kws [post [Hd [Hk [Hpre Hr]]]]]]] | [Hall Hr]].
      * left. exists ((label, keywords) :: pre), C, kws, post.
        split; [now rewrite Hd|]. split; [exact Hk|]. split.
        -- intros l ks [E|Hin]; [now injection E as <- <- | eauto].
        -- now rewrite Hr, add_events_app.
      * right. split.
        -- intros l ks [E|Hin]; [now injection E as <- <- | eauto].
        -- now rewrite Hr, add_events_app.
Qed.

(** The classifier is exact.  A label it returns is a key of its dictionary
    one of whose keywords occurs in the lower-cased text while no keyword of
    an earlier key does; it returns the empty label only when no keyword of
    the dictionary occurs. *)
Theorem classifier_labels_are_exact (text : str) (w : world) :
  exists industry objective,
    fst (extract_keywords text w) = Ok (industry, objective) /\
    ((exists pre kws post,
         industry_keywords = pre ++ (industry, kws) :: post /\
         any_in kws (lower text) = true /\
         (forall l ks, In (l, ks) pre -> any_in ks (lower text) = false)) \/
     (industry = [] /\
      forall l ks, In (l, ks) industry_keywords ->
                   any_in ks (lower text) = false)) /\
    ((exists pre kws post,
         objective_keywords = pre ++ (objective, kws) :: post /\
         any_in kws (lower text) = true /\
         (forall l ks, In (l, ks) pre -> any_in ks (lower text) = false)) \/
     (objective = [] /\
      forall l ks, In (l, ks) objective_keywords ->
                   any_in ks (lower text) = false)).
Proof.
  destruct text as [|c text'] eqn:Et.
  - exists [], []. split; [reflexivity|].
    split; right; (split; [reflexivity|]); intros l ks Hin;
      rewrite lower_nil; apply any_in_nil.
    + assert (Hd : forallb (fun entry => forallb truthy (snd entry))
                     industry_keywords = true) by reflexivity.
      rewrite forallb_forall in Hd. exact (Hd _ Hin).
    + assert (Hd : forallb (fun entry => forallb truthy (snd entry))
                     objective_keywords = true) by reflexivity.
      rewrite forallb_forall in Hd. exact (Hd _ Hin).
  - rewrite <- Et. assert (Ht : truthy text = true) by now rewrite Et.
    clear Et. rewrite extract_keywords_nonempty by exact Ht.
    set (w0 := add_events w [EvExtractKeywords text]).
    destruct (first_match_cases industry_keywords (lower text) w0)
      as [[pre [i [kws [post [Hd [Hk [Hpre Hr]]]]]]] | [Hall Hr]];
      rewrite (bind_ok _ _ _ _ _ Hr);
      match goal with
      | |- context [bind (first_match objective_keywords ?t) _ ?w1] =>
        destruct (first_match_cases objective_keywords t w1)
          as [[pre' [o [kws' [post' [Hd' [Hk' [Hpre' Hr']]]]]]] | [Hall' Hr']]
      end;
      rewrite (bind_ok _ _ _ _ _ Hr'); eexists; eexists;
      (split; [reflexivity|]); split;
      solve [ left; eauto 10 | right; eauto ].
Qed.

(** The loops stop at the first hit: when the text holds a keyword of the
    industry entry [C] and of the objective entry [C'] and none of an entry
    before them, the classifier returns [(C, C')] and has tested the labels
    up to [C] and up to [C'], none of the later ones. *)
Theorem classifier_stops_at_first_hit (text : str) (w : world)
  (pre post pre' post' : list (str * list str)) (C C' : str)
  (kws kws' : list str) :
  industry_keywords = pre ++ (C, kws) :: post ->
  objective_keywords = pre' ++ (C', kws') :: post' ->
  any_in kws (lower text) = true ->
  any_in kws' (lower text) = true ->
  (forall l ks, In (l, ks) pre -> any_in ks (lower text) = false) ->
  (forall l ks, In (l, ks) pre' -> any_in ks (lower text) = false) ->
  extract_keywords text w
  = (Ok (C, C'),
     add_events w
       (EvExtractKeywords text
        :: map EvScan (map fst pre ++ [C])
        ++ map EvScan (map fst pre' ++ [C']))).
Proof.
  intros Hd Hd' Hk Hk' Hpre Hpre'.
  assert (Ht : truthy text = true).
  { apply (trigger_needs_text kws); [|exact Hk].
    now apply (dictionary_words_nonempty industry_keywords pre post C). }
  rewrite extract_keywords_nonempty by exact Ht.
  set (w0 := add_events w [EvExtractKeywords text]).
  assert (Hone : forall d p q D k w1,
             d = p ++ (D, k) :: q -> any_in k (lower text) = true ->
             (forall l ks, In (l, ks) p -> any_in ks (lower text) = false) ->
             first_match d (lower text) w1
             = (Ok D, add_events w1 (map EvScan (map fst p ++ [D])))).
  { intros d p. revert d. induction p as [|[l0 k0] p IH];
      intros d q D k w1 -> HkD Hp; cbn [app first_match map fst];
      rewrite (bind_ok _ _ _ _ _ (emit_run _ w1)).
    - now rewrite HkD.
    - rewrite (Hp l0 k0) by (left; reflexivity).
      rewrite (IH _ q D k _ eq_refl HkD)
        by (intros l ks Hin; apply (Hp l ks); now right).
      now rewrite add_events_app. }
  rewrite (bind_ok _ _ _ _ _ (Hone _ _ _ _ _ w0 Hd Hk Hpre)).
  rewrite (bind_ok _ _ _ _ _ (Hone _ _ _ _ _ _ Hd' Hk' Hpre')).
  unfold ret, w0. now rewrite !add_events_app.
Qed.

End ClassifierSound.

(** [classifier_stops_at_first_hit] at "retail bank: reduce cost": two
    industry labels and the five objective labels are tested. *)
Lemma classifier_stops_at_first_hit_witness :
  @extract_keywords basic_latin example_host
     (u "retail bank: reduce cost") (example_world 0)
  = (Ok (u "零售", u "成本控制"),
     add_events (example_world 0)
       (EvExtractKeywords (u "retail bank: reduce cost")
        :: map EvScan (map fst (firstn 1 industry_keywords) ++ [u "零售"])
        ++ map EvScan
             (map fst (firstn 4 objective_keywords) ++ [u "成本控制"]))).
Proof.
  apply (@classifier_stops_at_first_hit basic_latin example_host
           (u "retail bank: reduce cost") (example_world 0)
           (firstn 1 industry_keywords) (skipn 2 industry_keywords)
           (firstn 4 objective_keywords) (skipn 5 objective_keywords)
           (u "零售") (u "成本控制")
           [u "零售"; u "retail"; u "distribution"; u "销售"]
           [u "成本"; u "节约"; u "降低"; u "control"; u "reduce"]).
  - reflexivity.
  - reflexivity.
  - vm_compute; reflexivity.
  - vm_compute; reflexivity.
  - intros l ks [E|[]]. injection E as <- <-. vm_compute; reflexivity.
  - intros l ks [E|[E|[E|[E|[]]]]]; injection E as <- <-;
      vm_compute; reflexivity.
Defined.

(** ** What the extractors write *)

Section ExtractedText.
Context {U : UnicodeData} {H : Host}.
Local Open Scope monad_scope.

Lemma in_str_here (t a b : str) : in_str t (a ++ t ++ b) = true.
Proof. apply in_str_iff. now exists a, b. Qed.

Lemma in_str_refl (t : str) : in_str t t = true.
Proof.
  apply in_str_iff. exists [], []. now rewrite app_nil_r.
Qed.

Lemma in_str_app_l (t s b : str) :
  in_str t s = true -> in_str t (s ++ b) = true.
Proof. intros Hs. exact (in_str_within t s [] b Hs). Qed.

Lemma in_str_app_r (t a s : str) :
  in_str t s = true -> in_str t (a ++ s) = true.
Proof.
  intros Hs. pose proof (in_str_within t s a [] Hs) as Hw.
  now rewrite app_nil_r in Hw.
Qed.

Lemma in_str_join (sep p : str) (parts : list str) :
  In p parts -> in_str p (join sep parts) = true.
Proof.
  induction parts as [|q parts IH]; [intros []|].
  intros [->|Hin].
  - destruct parts as [|r parts]; [apply in_str_refl|].
    cbn [join]. apply in_str_app_l, in_str_refl.
  - destruct parts as [|r parts]; [contradiction|].
    cbn [join]. apply in_str_app_r, in_str_app_r. now apply IH.
Qed.


Lemma notna_strs_In (cells : list cell) (c : str) :
  In c (notna_strs cells) <-> In (Some c) cells.
Proof.
  induction cells as [|[s|] cells IH]; cbn [notna_strs In].
  - tauto.
  - rewrite IH. split; intros [E|Hin]; auto; left; congruence.
  - rewrite IH. split; [auto | intros [E|Hin]; [discriminate | auto]].
Qed.

Lemma sample_rows_In (rows : list (list cell)) (row : list cell) (v : str) :
  In row rows -> In (Some v) row ->
  In (join (u ", ") (notna_strs row)) (sample_rows rows).
Proof.
  intros Hrow Hv. apply notna_strs_In in Hv.
  induction rows as [|r rows IH]; [contradiction|].
  cbn [sample_rows].
  destruct Hrow as [->|Hin].
  - destruct (notna_strs row) as [|x xs] eqn:E; [contradiction|].
    cbn [truthy_list]. now left.
  - destruct (truthy_list (notna_strs r)); [right|]; now apply IH.
Qed.

Lemma sample_rows_nil (rows : list (list cell)) :
  sample_rows rows = [] <->
  forall row v, In row rows -> ~ In (Some v) row.
Proof.
  induction rows as [|r rows IH]; cbn [sample_rows].
  - split; [intros _ row v [] | reflexivity].
  - destruct (notna_strs r) as [|x xs] eqn:E; cbn [truthy_list].
    + rewrite IH. split.
      * intros Hall row v [<-|Hin] Hv; [|now apply (Hall row v)].
        apply notna_strs_In in Hv. now rewrite E in Hv.
      * intros Hall row v Hin. apply Hall. now right.
    + split; [discriminate|]. intros Hall. exfalso.
      apply (Hall r x); [now left|]. apply notna_strs_In. rewrite E. now left.
Qed.

Lemma value_in_samples (rows : list (list cell)) (row : list cell) (v : str) :
  In row rows -> In (Some v) row ->
  in_str v (join (u "; ") (sample_rows rows)) = true.
Proof.
  intros Hrow Hv.
  apply (in_str_trans v (join (u ", ") (notna_strs row))).
  - apply in_str_join. now apply notna_strs_In.
  - apply in_str_join. now apply (sample_rows_In rows row v).
Qed.

(** The text of a CSV file shows every column name that is not missing and
    every value that is not missing in the first five rows; it is empty
    exactly when there is no such name and no such value. *)
Theorem csv_text_shows_cells (path : str) (df : DataFrame) (w : world) :
  read_csv path = Ok df ->
  exists t,
    extract_text_from_csv path w = (Ok t, w) /\
    (forall c, In (Some c) (df_columns df) -> in_str c t = true) /\
    (forall row v, In row (firstn 5 (df_rows df)) -> In (Some v) row ->
                   in_str v t = true) /\
    (t = [] <->
     (forall c, ~ In (Some c) (df_columns df)) /\
     (forall row v, In row (firstn 5 (df_rows df)) -> ~ In (Some v) row)).
Proof.
  intros Hdf. unfold extract_text_from_csv. rewrite try_except_print;
    [|unfold bind, call, ret; now destruct (read_csv path)].
  unfold bind, call, ret. rewrite Hdf. cbn [fst].
  remember (join (u ", ") (notna_strs (df_columns df))) as jc eqn:Ejc.
  remember (join (u "; ") (sample_rows (firstn 5 (df_rows df)))) as js
    eqn:Ejs.
  eexists. split; [reflexivity|].
  assert (Hcol : forall c, In (Some c) (df_columns df) -> in_str c jc = true).
  { intros c Hc. rewrite Ejc. apply in_str_join. now apply notna_strs_In. }
  assert (Hval : forall row v, In row (firstn 5 (df_rows df)) ->
                               In (Some v) row -> in_str v js = true).
  { intros row v Hrow Hv. rewrite Ejs. now apply (value_in_samples _ row). }
  destruct (notna_strs (df_columns df)) as [|c0 cs] eqn:Ec;
    destruct (sample_rows (firstn 5 (df_rows df))) as [|s0 ss] eqn:Es;
    cbn [truthy_list app join].
  - split; [|split].
    + intros c Hc. apply notna_strs_In in Hc. now rewrite Ec in Hc.
    + intros row v Hrow Hv. exfalso.
      exact (proj1 (sample_rows_nil _) Es row v Hrow Hv).
    + split; [|reflexivity]. intros _. split.
      * intros c Hc. apply notna_strs_In in Hc. now rewrite Ec in Hc.
      * exact (proj1 (sample_rows_nil _) Es).
  - split; [|split].
    + intros c Hc. apply notna_strs_In in Hc. now rewrite Ec in Hc.
    + intros row v Hrow Hv. apply in_str_app_r. now apply (Hval row).
    + split; [intros E; apply app_eq_nil in E as [E _]; revert E;
              vm_compute; discriminate|].
      intros [_ Hall]. apply sample_rows_nil in Hall. congruence.
  - split; [|split].
    + intros c Hc. apply in_str_app_r. now apply Hcol.
    + intros row v Hrow Hv. exfalso.
      exact (proj1 (sample_rows_nil _) Es row v Hrow Hv).
    + split; [intros E; apply app_eq_nil in E as [E _]; revert E;
              vm_compute; discriminate|].
      intros [Hall _]. exfalso. apply (Hall c0).
      apply notna_strs_In. rewrite Ec. now left.
  - split; [|split].
    + intros c Hc. apply in_str_app_l, in_str_app_r. now apply Hcol.
    + intros row v Hrow Hv. apply in_str_app_r, in_str_app_r, in_str_app_r.
      now apply (Hval row).
    + split; [intros E; apply app_eq_nil in E as [E _];
              apply app_eq_nil in E as [E _]; revert E;
              vm_compute; discriminate|].
      intros [Hall _]. exfalso. apply (Hall c0).
      apply notna_strs_In. rewrite Ec. now left.
Qed.

Lemma extract_text_from_excel_blocks (path : str) :
  extract_text_from_excel path
  = try_except
      (xls <- call (ExcelFile path) ;;
       full_text <- for_each (sheet_names xls) (fun sheet_name =>
         df <- call (read_excel xls sheet_name) ;;
         ret (sheet_block sheet_name df)) ;;
       ret (join (u "
") full_text))
      (fun e => print (u "提取Excel内容出错: " ++ exn_str e) ;; ret []).
Proof. reflexivity. Qed.

(** Reading the sheets in order either gives the block of every sheet or
    stops at a sheet that cannot be read. *)
Lemma read_sheets_cases (xls : workbook) (xs : list str) (w : world) :
  (exists blocks,
      for_each xs (fun sheet_name =>
                     df <- call (read_excel xls sheet_name) ;;
                     ret (sheet_block sheet_name df)) w
      = (Ok blocks, w) /\
      Forall2 (fun x y => exists df, read_excel xls x = Ok df /\
                                     y = sheet_block x df) xs blocks) \/
  (exists x e,
      In x xs /\ read_excel xls x = Raise e /\
      for_each xs (fun sheet_name =>
                     df <- call (read_excel xls sheet_name) ;;
                     ret (sheet_block sheet_name df)) w
      = (Raise e, w)).
Proof.
  match goal with
  | |- context [for_each _ ?g] => set (f := g) in *
  end.
  induction xs as [|x xs IH].
  - left. exists []. split; [reflexivity | constructor].
  - cbn [for_each].
    assert (Hf : f x w = match read_excel xls x with
                         | Ok df => (Ok (sheet_block x df), w)
                         | Raise e => (Raise e, w)
                         end).
    { unfold f, bind, call, ret. now destruct (read_excel xls x). }
    destruct (read_excel xls x) as [df|e] eqn:Ex.
    + rewrite (bind_ok _ _ _ _ _ Hf).
      destruct IH as [[blocks [Hr HF]] | [y [e [Hin [Hy Hr]]]]].
      * left. exists (sheet_block x df :: blocks).
        rewrite (bind_ok _ _ _ _ _ Hr). split; [reflexivity|].
        constructor; eauto.
      * right. exists y, e. rewrite (bind_raise _ _ _ _ _ Hr).
        split; [now right | auto].
    + right. exists x, e. rewrite (bind_raise _ _ _ _ _ Hf).
      split; [now left | auto].
Qed.

Lemma sheet_block_shows (sheet_name : str) (df : DataFrame) :
  in_str (u "工作表: " ++ sheet_name) (sheet_block sheet_name df) = true /\
  (forall c, In (Some c) (df_columns df) ->
             in_str c (sheet_block sheet_name df) = true) /\
  (forall row v, In row (firstn 5 (df_rows df)) -> In (Some v) row ->
                 in_str v (sheet_block sheet_name df) = true) /\
  sheet_block sheet_name df <> [].
Proof.
  unfold sheet_block. cbv zeta.
  remember (join (u ", ") (notna_strs (df_columns df))) as jc eqn:Ejc.
  remember (join (u "; ") (sample_rows (firstn 5 (df_rows df)))) as js
    eqn:Ejs.
  assert (Hcol : forall c, In (Some c) (df_columns df) -> in_str c jc = true).
  { intros c Hc. rewrite Ejc. apply in_str_join. now apply notna_strs_In. }
  assert (Hval : forall row v, In row (firstn 5 (df_rows df)) ->
                               In (Some v) row -> in_str v js = true).
  { intros row v Hrow Hv. rewrite Ejs. now apply (value_in_samples _ row). }
  assert (Hhead : forall rest,
             in_str (u "工作表: " ++ sheet_name)
                    (u "工作表: " ++ sheet_name ++ rest) = true).
  { intros rest. rewrite app_assoc. apply in_str_app_l, in_str_refl. }
  assert (Hne : forall rest, u "工作表: " ++ sheet_name ++ rest <> []).
  { intros rest E. apply app_eq_nil in E as [E _]. revert E.
    vm_compute. discriminate. }
  destruct (notna_strs (df_columns df)) as [|c0 cs] eqn:Ec;
    destruct (sample_rows (firstn 5 (df_rows df))) as [|s0 ss] eqn:Es;
    cbn [truthy_list]; rewrite <- ?app_assoc;
    (split; [apply Hhead|]); (split; [|split; [|apply Hne]]).
  - intros c Hc. apply notna_strs_In in Hc. now rewrite Ec in Hc.
  - intros row v Hrow Hv. exfalso.
    exact (proj1 (sample_rows_nil _) Es row v Hrow Hv).
  - intros c Hc. apply notna_strs_In in Hc. now rewrite Ec in Hc.
  - intros row v Hrow Hv. do 4 apply in_str_app_r. apply in_str_app_l.
    now apply (Hval row).
  - intros c Hc. do 4 apply in_str_app_r. apply in_str_app_l.
    now apply Hcol.
  - intros row v Hrow Hv. exfalso.
    exact (proj1 (sample_rows_nil _) Es row v Hrow Hv).
  - intros c Hc. do 4 apply in_str_app_r. apply in_str_app_l.
    now apply Hcol.
  - intros row v Hrow Hv. do 7 apply in_str_app_r. apply in_str_app_l.
    now apply (Hval row).
Qed.

Lemma forall2_block_In (xls : workbook) (xs : list str) (blocks : list str)
  (x : str) (df : DataFrame) :
  Forall2 (fun x y => exists df, read_excel xls x = Ok df /\
                                 y = sheet_block x df) xs blocks ->
  In x xs -> read_excel xls x = Ok df -> In (sheet_block x df) blocks.
Proof.
  intros HF. induction HF as [|x0 y0 xs ys [df0 [H0 ->]] HF IH];
    [intros []|].
  intros [->|Hin] Hx.
  - left. rewrite Hx in H0. now injection H0 as ->.
  - right. now apply IH.
Qed.


(** When every sheet of a workbook can be read, the text shows, sheet by
    sheet, the header with the sheet name, every column name that is not
    missing and every value that is not missing in the first five rows. *)
Theorem excel_text_shows_cells (path : str) (xls : workbook) (w : world) :
  ExcelFile path = Ok xls ->
  (forall sheet, In sheet (sheet_names xls) ->
                 exists df, read_excel xls sheet = Ok df) ->
  exists t,
    extract_text_from_excel path w = (Ok t, w) /\
    forall sheet df,
      In sheet (sheet_names xls) -> read_excel xls sheet = Ok df ->
      in_str (u "工作表: " ++ sheet) t = true /\
      (forall c, In (Some c) (df_columns df) -> in_str c t = true) /\
      (forall row v, In row (firstn 5 (df_rows df)) -> In (Some v) row ->
                     in_str v t = true).
Proof.
  intros Hx Hall. rewrite extract_text_from_excel_blocks.
  unfold try_except. rewrite Hx, (bind_ok _ _ w w xls eq_refl).
  destruct (read_sheets_cases xls (sheet_names xls) w)
    as [[blocks [Hr HF]] | [x [e [Hin [Hxe Hr]]]]].
  - rewrite (bind_ok _ _ _ _ _ Hr). cbn [ret]. eexists.
    split; [reflexivity|].
    intros sheet df Hin Hdf.
    pose proof (forall2_block_In xls _ _ sheet df HF Hin Hdf) as Hb.
    pose proof (in_str_join (u "
") _ _ Hb) as Hj.
    destruct (sheet_block_shows sheet df) as [S1 [S2 [S3 _]]].
    split; [|split].
    + exact (in_str_trans _ _ _ S1 Hj).
    + intros c Hc. exact (in_str_trans _ _ _ (S2 c Hc) Hj).
    + intros row v Hrow Hv. exact (in_str_trans _ _ _ (S3 row v Hrow Hv) Hj).
  - destruct (Hall x Hin) as [df Hdf]. rewrite Hdf in Hxe. discriminate.
Qed.

End ExtractedText.

(** [csv_text_shows_cells] on the example host, whose CSV files hold the
    column "item" and the value "reduce cost". *)
Lemma csv_text_shows_cells_witness :
  exists t,
    @extract_text_from_csv example_host (u "orders.csv") (example_world 0)
    = (Ok t, example_world 0) /\
    in_str (u "item") t = true /\ in_str (u "reduce cost") t = true.
Proof.
  destruct (@csv_text_shows_cells example_host (u "orders.csv")
              {| df_columns := [Some (u "item"); None];
                 df_rows := [[Some (u "reduce cost"); None]] |}
              (example_world 0) eq_refl) as [t [Hr [Hc [Hv _]]]].
  exists t. split; [exact Hr|]. split.
  - apply Hc. now left.
  - apply (Hv [Some (u "reduce cost"); None]); now left.
Defined.

(** [excel_text_shows_cells] on the host whose workbooks can be read. *)
Lemma excel_text_shows_cells_witness :
  exists t,
    @extract_text_from_excel example_workbook_host (u "plan.xlsx")
       (@Build_world example_workbook_host 0 0 [])
    = (Ok t, @Build_world example_workbook_host 0 0 []) /\
    in_str (u "工作表: 备注") t = true /\
    in_str (u "物料") t = true /\ in_str (u "bolt") t = true.
Proof.
  destruct (@excel_text_shows_cells example_workbook_host (u "plan.xlsx")
              example_workbook (@Build_world example_workbook_host 0 0 []))
    as [t [Hr Hs]].
  - reflexivity.
  - intros sheet [<-|[<-|[]]]; eexists; reflexivity.
  - exists t. split; [exact Hr|].
    destruct (Hs (u "备注") {| df_columns := [None]; df_rows := [] |})
      as [S1 _]; [right; now left | reflexivity |].
    destruct (Hs (u "Q1") (snd (hd (u "Q1", {| df_columns := [];
                                               df_rows := [] |})
                                  example_workbook)))
      as [_ [S2 S3]]; [now left | reflexivity |].
    split; [exact S1|]. split.
    + apply S2. now left.
    + apply (S3 [Some (u "bolt"); None; Some (u "12")]); now left.
Defined.

(** ** The two file analyses *)

Section AnalyzeFileFacts.
Context {U : UnicodeData} {H : Host}.

















Lemma agree_bind {A B C : Type} (R : B -> C -> Prop) (m : M A)
  (k1 : A -> M B) (k2 : A -> M C) (w : world) :
  (forall a w', agree R (k1 a w') (k2 a w')) ->
  agree R (bind m k1 w) (bind m k2 w).
Proof.
  intros Hk. unfold bind. destruct (m w) as [[a|e] w'].
  - apply Hk.
  - split; reflexivity.
Qed.

Lemma agree_ret {A B : Type} (R : A -> B -> Prop) (a : A) (b : B)
  (w : world) :
  R a b -> agree R (ret a w) (ret b w).
Proof. intros HR. split; [reflexivity | exact HR]. Qed.

(** The two analyses run through the same steps. *)
Lemma analyses_step_together (file_path : option str)
  (industry_input objective_input : str) (w : world) :
  agree (fun r1 r2 => status_and_labels r1 = status_and_labels r2)
    (PlatformApp.analyze_file file_path industry_input objective_input w)
    (analyze_file file_path industry_input objective_input w).
Proof.
  unfold PlatformApp.analyze_file, analyze_file.
  destruct file_path as [path|]; [|now apply agree_ret].
  destruct (truthy path); [|now apply agree_ret].
  apply agree_bind. intros size w1.
  apply agree_bind. intros [text ft] w2. cbv beta iota.
  apply agree_bind. intros [ei eo] w3. cbv beta iota.
  apply agree_bind. intros _ w4. cbv zeta.
  destruct (Platform.get_procurement_advice_with_flow
              (if truthy ei then ei else industry_input)
              (if truthy eo then eo else objective_input))
    as [[title content] flow].
  apply agree_bind. intros now w5.
  apply agree_bind. intros dp w6.
  apply agree_bind. intros tr w7.
  apply agree_bind. intros c w8.
  destruct (Intergration.get_procurement_advice
              (if truthy ei then ei else industry_input)
              (if truthy eo then eo else objective_input))
    as [title' content'].
  now apply agree_ret.
Qed.


Lemma other_suffix (name : str) :
  endswith_any name [u ".pdf"; u ".doc"] = true ->
  endswith name (u ".docx") = false /\
  endswith_any name [u ".xlsx"; u ".xls"] = false /\
  endswith name (u ".csv") = false.
Proof.
  unfold endswith_any, endswith. cbn [existsb].
  change (rev (u ".pdf")) with [102; 100; 112; 46].
  change (rev (u ".doc")) with [99; 111; 100; 46].
  change (rev (u ".docx")) with [120; 99; 111; 100; 46].
  change (rev (u ".xlsx")) with [120; 115; 108; 120; 46].
  change (rev (u ".xls")) with [115; 108; 120; 46].
  change (rev (u ".csv")) with [118; 115; 99; 46].
  destruct (rev name) as [|c r]; [discriminate|]. cbn [startswith].
  intros Hn. rewrite orb_false_r in Hn.
  apply orb_true_iff in Hn as [Hn|Hn];
    apply andb_true_iff in Hn as [Hc _]; apply N.eqb_eq in Hc; subst c;
    repeat split; reflexivity.
Qed.

(** The upload widget accepts ".pdf" and ".doc", but [analyze_file] has no
    extractor for them: on such a file both analyses go on without calling
    the classifier and return the labels they were given. *)
Theorem listed_types_without_extractor
  (path industry_input objective_input : str) (size : N) :
  In (u ".pdf") SUPPORTED_FILE_TYPES /\
  In (u ".doc") SUPPORTED_FILE_TYPES /\
  (truthy path = true -> getsize path = Ok size -> randbelow_in_range ->
   endswith_any (lower (basename path)) [u ".pdf"; u ".doc"] = true ->
   skips_classifier
     (analyze_file (Some path) industry_input objective_input)
     (fun r => snd (fst r) = industry_input /\ snd r = objective_input) /\
   skips_classifier
     (PlatformApp.analyze_file (Some path) industry_input objective_input)
     (fun r => snd (fst r) = industry_input /\ snd r = objective_input)).
Proof.
  split; [unfold SUPPORTED_FILE_TYPES; cbn [In]; tauto|].
  split; [unfold SUPPORTED_FILE_TYPES; cbn [In]; tauto|].
  intros Ht Hs Hr Hn. destruct (other_suffix _ Hn) as [Hd [Hx Hc]].
  assert (Hsize : skips_classifier (call (getsize path)) (fun a => a = size)).
  { rewrite Hs. apply runs_call. split; [now exists size | reflexivity]. }
  assert (Hskip : negb (str_eqb (u "其他文件") (u "其他文件")) = false)
    by reflexivity.
  split.
  - unfold analyze_file. rewrite Ht, Hd, Hx, Hc.
    apply (skips_bind _ _ _ _ Hsize). intros a ->.
    apply (skips_bind _ _ (fun p => snd p = u "其他文件"));
      [now apply skips_ret|].
    intros [text ft] Hf. cbn [snd] in Hf. subst ft.
    rewrite Hskip, andb_false_r.
    apply (skips_bind _ _ (fun p => p = ([], []))); [now apply skips_ret|].
    intros [ei eo] E. injection E as -> ->.
    apply (skips_bind _ _ _ _ (skips_progress_loop 100)). intros _ _.
    apply (skips_bind _ _ _ _ skips_datetime_now). intros now _.
    apply (skips_bind _ _ _ _ (skips_randint 3 10 Hr)). intros dp _.
    apply (skips_bind _ _ _ _ (skips_randint 1 3 Hr)). intros tr _.
    apply (skips_bind _ _ (fun _ => True)).
    { apply skips_choice; [exact Hr | unfold conclusions; discriminate]. }
    intros c _. cbn [truthy].
    destruct (Intergration.get_procurement_advice
                industry_input objective_input) as [title content].
    apply skips_ret. split; reflexivity.
  - unfold PlatformApp.analyze_file. rewrite Ht, Hd, Hx, Hc.
    apply (skips_bind _ _ _ _ Hsize). intros a ->.
    apply (skips_bind _ _ (fun p => snd p = u "其他文件"));
      [now apply skips_ret|].
    intros [text ft] Hf. cbn [snd] in Hf. subst ft.
    rewrite Hskip, andb_false_r.
    apply (skips_bind _ _ (fun p => p = ([], []))); [now apply skips_ret|].
    intros [ei eo] E. injection E as -> ->.
    apply (skips_bind _ _ _ _ (skips_progress_loop 100)). intros _ _.
    cbn [truthy].
    destruct (Platform.get_procurement_advice_with_flow
                industry_input objective_input) as [[title content] flow].
    apply (skips_bind _ _ _ _ skips_datetime_now). intros now _.
    apply (skips_bind _ _ _ _ (skips_randint 3 10 Hr)). intros dp _.
    apply (skips_bind _ _ _ _ (skips_randint 1 3 Hr)). intros tr _.
    apply (skips_bind _ _ (fun _ => True)).
    { apply skips_choice; [exact Hr | unfold conclusions; discriminate]. }
    intros c _. apply skips_ret. split; reflexivity.
Qed.

(** The last [n] rounds of the simulated progress bar. *)
Lemma progress_loop_run (n : nat) (w : world) :
  (n <= 100)%nat ->
  progress_loop n w
  = (Ok tt,
     {| w_rng := w_rng w;
        w_clock := Nat.iter n sleep (w_clock w);
        w_trace := w_trace w
                   ++ flat_map (fun i => [EvSleep; EvProgress i])
                        (seq (100 - n) n) |}).
Proof.
  revert w. induction n as [|n IH]; intros w Hn.
  - cbn [progress_loop seq flat_map Nat.iter nat_rect]. unfold ret.
    rewrite app_nil_r. now destruct w.
  - cbn [progress_loop]. unfold bind at 1, time_sleep. unfold bind at 1, emit.
    rewrite IH by lia. cbn [w_rng w_clock w_trace].
    rewrite Nat.iter_succ_r, <- !app_assoc. cbn [seq flat_map app].
    replace (S (100 - S n)) with (100 - n)%nat by lia. reflexivity.
Qed.

(** The progress bar of [analyze_file] always runs its hundred rounds: it
    sleeps one hundred times, reports the steps 0 to 99 in this order, and
    draws nothing from the generator. *)
Theorem progress_loop_reports_all_steps (w : world) :
  progress_loop 100 w
  = (Ok tt,
     {| w_rng := w_rng w;
        w_clock := Nat.iter 100 sleep (w_clock w);
        w_trace := w_trace w
                   ++ flat_map (fun i => [EvSleep; EvProgress i])
                        (seq 0 100) |}).
Proof.
  now rewrite progress_loop_run.
Qed.

(** The two applications analyse a file alike: from the same world the
    diagram variant and the plain variant leave the same world (the same
    draws, the same trace) and either raise the same exception or return the
    same status and the same two labels; only the reports differ. *)
Theorem analyses_agree (file_path : option str)
  (industry_input objective_input : str) (w : world) :
  agree (fun r1 r2 => status_and_labels r1 = status_and_labels r2)
    (PlatformApp.analyze_file file_path industry_input objective_input w)
    (analyze_file file_path industry_input objective_input w).
Proof.
  unfold PlatformApp.analyze_file, analyze_file.
  destruct file_path as [path|]; [|now apply agree_ret].
  destruct (truthy path); [|now apply agree_ret].
  apply agree_bind. intros size w1.
  apply agree_bind. intros [text ft] w2. cbv beta iota.
  apply agree_bind. intros [ei eo] w3. cbv beta iota.
  apply agree_bind. intros _ w4. cbv zeta.
  destruct (Platform.get_procurement_advice_with_flow
              (if truthy ei then ei else industry_input)
              (if truthy eo then eo else objective_input))
    as [[title content] flow].
  apply agree_bind. intros now w5.
  apply agree_bind. intros dp w6.
  apply agree_bind. intros tr w7.
  apply agree_bind. intros c w8.
  destruct (Intergration.get_procurement_advice
              (if truthy ei then ei else industry_input)
              (if truthy eo then eo else objective_input))
    as [title' content'].
  now apply agree_ret.
Qed.

(** The labels [analyze_file] hands back to the two input boxes are the
    ones typed in or keys of the classifier's dictionaries, in both
    applications. *)
Theorem analysis_labels_are_keys_or_inputs (file_path : option str)
  (industry_input objective_input : str) (w : world)
  (report status industry objective : str) :
  fst (analyze_file file_path industry_input objective_input w)
  = Ok (report, status, industry, objective) \/
  fst (PlatformApp.analyze_file file_path industry_input objective_input w)
  = Ok (report, status, industry, objective) ->
  (industry = industry_input \/ In industry (map fst industry_keywords)) /\
  (objective = objective_input \/
   In objective (map fst objective_keywords)).
Proof.
  assert (Hplain : forall report status industry objective,
             fst (analyze_file file_path industry_input objective_input w)
             = Ok (report, status, industry, objective) ->
             (industry = industry_input \/
              In industry (map fst industry_keywords)) /\
             (objective = objective_input \/
              In objective (map fst objective_keywords))).
  { clear report status industry objective.
    intros report status industry objective Hrun.
    unfold analyze_file in Hrun.
    destruct file_path as [path|];
      [|cbn in Hrun; injection Hrun as _ _ <- <-; auto].
    destruct (truthy path);
      [|cbn in Hrun; injection Hrun as _ _ <- <-; auto].
    apply bind_inv in Hrun as [size [w1 [_ Hrun]]].
    apply bind_inv in Hrun as [[text ft] [w2 [_ Hrun]]].
    cbv beta iota in Hrun.
    apply bind_inv in Hrun as [[ei eo] [w3 [Hc Hrun]]].
    cbv beta iota in Hrun.
    apply bind_inv in Hrun as [[] [w4 [_ Hrun]]].
    apply bind_inv in Hrun as [now [w5 [_ Hrun]]].
    apply bind_inv in Hrun as [dp [w6 [_ Hrun]]].
    apply bind_inv in Hrun as [tr [w7 [_ Hrun]]].
    apply bind_inv in Hrun as [c [w8 [_ Hrun]]].
    cbv zeta in Hrun.
    destruct (Intergration.get_procurement_advice
                (if truthy ei then ei else industry_input)
                (if truthy eo then eo else objective_input))
      as [title content].
    cbn [ret fst] in Hrun. injection Hrun as _ _ <- <-.
    assert (Hl : (ei = [] \/ In ei (map fst industry_keywords)) /\
                 (eo = [] \/ In eo (map fst objective_keywords))).
    { destruct (truthy text && negb (str_eqb ft (u "其他文件"))).
      - destruct (extract_keywords_run text w2)
          as [i [o [evs [Hr [Hi [Ho _]]]]]].
        rewrite Hr in Hc. injection Hc as <- <- _. auto.
      - cbn in Hc. injection Hc as <- <- _. auto. }
    destruct Hl as [[->|Hi] [->|Ho]]; cbn [truthy];
      (split; [first [now left | destruct (truthy ei); auto]
              | first [now left | destruct (truthy eo); auto]]). }
  intros [Hrun|Hrun]; [now apply (Hplain report status)|].
  destruct (analyses_step_together file_path
              industry_input objective_input w) as [_ Hag].
  rewrite Hrun in Hag.
  destruct (fst (analyze_file file_path industry_input objective_input w))
    as [[[[report' status'] industry'] objective']|e] eqn:Ep;
    [|contradiction].
  cbn [status_and_labels] in Hag. injection Hag as _ -> ->.
  now apply (Hplain report' status').
Qed.

End AnalyzeFileFacts.








(** [listed_types_without_extractor] at the file "brief.pdf". *)
Lemma listed_types_without_extractor_witness :
  @skips_classifier example_host _
    (@analyze_file basic_latin example_host
       (Some (u "in/brief.pdf")) (u "retail") (u "reduce cost"))
    (fun r => snd (fst r) = u "retail" /\ snd r = u "reduce cost") /\
  @skips_classifier example_host _
    (@PlatformApp.analyze_file basic_latin example_host
       (Some (u "in/brief.pdf")) (u "retail") (u "reduce cost"))
    (fun r => snd (fst r) = u "retail" /\ snd r = u "reduce cost").
Proof.
  apply (@listed_types_without_extractor basic_latin example_host
           (u "in/brief.pdf") (u "retail") (u "reduce cost") 2048).
  - reflexivity.
  - reflexivity.
  - exact example_host_in_range.
  - vm_compute; reflexivity.
Defined.

(** [analysis_labels_are_keys_or_inputs] at the Word document of the example
    host, which is classified, with two labels typed in. *)
Lemma analysis_labels_are_keys_or_inputs_witness :
  exists report status industry objective,
    fst (@analyze_file basic_latin example_host
           (Some (u "notes/plan.docx")) (u "retail") (u "reduce cost")
           (example_world 0))
    = Ok (report, status, industry, objective) /\
    (industry = u "retail" \/ In industry (map fst industry_keywords)) /\
    (objective = u "reduce cost" \/
     In objective (map fst objective_keywords)).
Proof.
  eexists. eexists. eexists. eexists.
  split; [vm_compute; reflexivity|].
  eapply (@analysis_labels_are_keys_or_inputs basic_latin example_host
            (Some (u "notes/plan.docx")) (u "retail") (u "reduce cost")
            (example_world 0)).
  left. vm_compute. reflexivity.
Defined.

(** ** What the analyses pass to the classifier and show of its answer *)

Section AnalysisComposition.
Context {U : UnicodeData} {H : Host}.

Lemma filter_none (evs : list event) :
  existsb is_extract_keywords evs = false ->
  filter is_extract_keywords evs = [].
Proof.
  induction evs as [|e evs IH]; [reflexivity|]. cbn [existsb filter].
  intros Hx. apply orb_false_iff in Hx as [He Hx]. rewrite He. now apply IH.
Qed.

Lemma scans_are_no_calls (evs : list event) :
  forallb is_scan evs = true -> filter is_extract_keywords evs = [].
Proof.
  induction evs as [|e evs IH]; [reflexivity|]. cbn [forallb filter].
  intros Hx. apply andb_true_iff in Hx as [He Hx].
  destruct e; try discriminate. cbn [is_extract_keywords]. now apply IH.
Qed.

Lemma calls_of_skips {A : Type} (m : M A) (P : A -> Prop) :
  skips_classifier m P -> calls_classifier m [] P.
Proof.
  intros Hm. apply (runs_weaken _ _ _ Hm).
  intros r evs [Hr He]. split; [exact Hr | now apply filter_none].
Qed.

Lemma calls_bind {A B : Type} (m : M A) (k : A -> M B)
  (c1 c2 c : list event) (PA : A -> Prop) (P : B -> Prop) :
  c = c1 ++ c2 ->
  calls_classifier m c1 PA ->
  (forall a, PA a -> calls_classifier (k a) c2 P) ->
  calls_classifier (bind m k) c P.
Proof.
  intros -> Hm Hk. apply (runs_bind _ _ _ _ Hm).
  - intros a evs1 [[a' [E Ha]] He1]. injection E as <-.
    apply (runs_weaken _ _ _ (Hk a Ha)).
    intros r evs2 [Hr He2]. split; [exact Hr|].
    now rewrite filter_app, He1, He2.
  - intros e evs1 [[a [E _]] _]. discriminate.
Qed.

Lemma calls_extract_keywords (text : str) :
  calls_classifier (extract_keywords text) [EvExtractKeywords text]
    (fun _ => True).
Proof.
  intros w. destruct (extract_keywords_run text w)
    as [i [o [evs [Hr [_ [_ Hs]]]]]].
  rewrite Hr. eexists. split; [reflexivity|].
  split; [now exists (i, o)|].
  cbn [filter is_extract_keywords]. now rewrite scans_are_no_calls.
Qed.

Lemma calls_read_docx (path : str) (paragraphs : list str) :
  Document path = Ok paragraphs ->
  calls_classifier (extract_text_from_docx path) []
    (fun t => t = join (u "
") paragraphs).
Proof.
  intros Hd w. rewrite extract_text_from_docx_run, Hd.
  exists []. cbn [snd fst]. rewrite app_nil_r.
  split; [reflexivity|]. split; [eauto | reflexivity].
Qed.

(** The steps after the classification call the classifier no more. *)
Ltac quiet_tail Hr :=
  eapply (calls_bind _ _ [] [] _ (fun _ => True)); [reflexivity | |];
    [exact (calls_of_skips _ _ skips_datetime_now)|]; intros ? _;
  eapply (calls_bind _ _ [] [] _ (fun _ => True)); [reflexivity | |];
    [exact (calls_of_skips _ _ (skips_randint 3 10 Hr))|]; intros ? _;
  eapply (calls_bind _ _ [] [] _ (fun _ => True)); [reflexivity | |];
    [exact (calls_of_skips _ _ (skips_randint 1 3 Hr))|]; intros ? _;
  eapply (calls_bind _ _ [] [] _ (fun _ => True)); [reflexivity | |];
    [apply calls_of_skips, skips_choice;
     [exact Hr | unfold conclusions; discriminate]|]; intros ? _.

(** A Word document that can be read and is not empty is classified exactly
    once, and what the classifier receives is the text of the paragraphs
    joined by line feeds, in both applications. *)
Theorem word_document_is_classified_once
  (path industry_input objective_input : str) (size : N)
  (paragraphs : list str) :
  truthy path = true -> getsize path = Ok size -> randbelow_in_range ->
  endswith (lower (basename path)) (u ".docx") = true ->
  Document path = Ok paragraphs ->
  truthy (join (u "
") paragraphs) = true ->
  calls_classifier
    (analyze_file (Some path) industry_input objective_input)
    [EvExtractKeywords (join (u "
") paragraphs)] (fun _ => True) /\
  calls_classifier
    (PlatformApp.analyze_file (Some path) industry_input objective_input)
    [EvExtractKeywords (join (u "
") paragraphs)] (fun _ => True).
Proof.
  intros Ht Hs Hr Hd Hdoc Htext.
  assert (Hword : negb (str_eqb (u "Word文档") (u "其他文件")) = true)
    by reflexivity.
  split.
  - unfold analyze_file. rewrite Ht, Hs, Hd.
    eapply (calls_bind _ _ [] _ _ (fun _ => True)); [reflexivity | |].
    { apply calls_of_skips, runs_call. split; [eauto | reflexivity]. }
    intros a _.
    eapply (calls_bind _ _ [] _ _
             (fun p => p = (join (u "
") paragraphs, u "Word文档")));
      [reflexivity | |].
    { eapply (calls_bind _ _ [] [] _ _ _ eq_refl (calls_read_docx _ _ Hdoc)).
      intros t ->. apply calls_of_skips. now apply skips_ret. }
    intros p ->. cbv beta iota. rewrite Htext, Hword. cbn [andb].
    eapply (calls_bind _ _ _ [] _ _ _ (eq_sym (app_nil_r _))
             (calls_extract_keywords _)).
    intros [ei eo] _.
    eapply (calls_bind _ _ [] [] _ (fun _ => True)); [reflexivity | |].
    { exact (calls_of_skips _ _ (skips_progress_loop 100)). }
    intros _ _. quiet_tail Hr. cbv zeta.
    match goal with
    | |- context [Intergration.get_procurement_advice ?a ?b] =>
      destruct (Intergration.get_procurement_advice a b)
    end.
    apply calls_of_skips. now apply skips_ret.
  - unfold PlatformApp.analyze_file. rewrite Ht, Hs, Hd.
    eapply (calls_bind _ _ [] _ _ (fun _ => True)); [reflexivity | |].
    { apply calls_of_skips, runs_call. split; [eauto | reflexivity]. }
    intros a _.
    eapply (calls_bind _ _ [] _ _
             (fun p => p = (join (u "
") paragraphs, u "Word文档")));
      [reflexivity | |].
    { eapply (calls_bind _ _ [] [] _ _ _ eq_refl (calls_read_docx _ _ Hdoc)).
      intros t ->. apply calls_of_skips. now apply skips_ret. }
    intros p ->. cbv beta iota. rewrite Htext, Hword. cbn [andb].
    eapply (calls_bind _ _ _ [] _ _ _ (eq_sym (app_nil_r _))
             (calls_extract_keywords _)).
    intros [ei eo] _.
    eapply (calls_bind _ _ [] [] _ (fun _ => True)); [reflexivity | |].
    { exact (calls_of_skips _ _ (skips_progress_loop 100)). }
    intros _ _. cbv zeta.
    match goal with
    | |- context [Platform.get_procurement_advice_with_flow ?a ?b] =>
      destruct (Platform.get_procurement_advice_with_flow a b) as [[? ?] ?]
    end.
    quiet_tail Hr. apply calls_of_skips. now apply skips_ret.
Qed.



End AnalysisComposition.

(** [word_document_is_classified_once] at the Word document of the example
    host. *)
Lemma word_document_is_classified_once_witness :
  @calls_classifier example_host _
    (@analyze_file basic_latin example_host
       (Some (u "notes/plan.docx")) [] [])
    [EvExtractKeywords
       (join (u "
") [u "我们是一家制造企业"; u "需要做物料计划"])]
    (fun _ => True) /\
  @calls_classifier example_host _
    (@PlatformApp.analyze_file basic_latin example_host
       (Some (u "notes/plan.docx")) [] [])
    [EvExtractKeywords
       (join (u "
") [u "我们是一家制造企业"; u "需要做物料计划"])]
    (fun _ => True).
Proof.
  apply (@word_document_is_classified_once basic_latin example_host
           (u "notes/plan.docx") [] [] 2048
           [u "我们是一家制造企业"; u "需要做物料计划"]).
  - reflexivity.
  - reflexivity.
  - exact example_host_in_range.
  - vm_compute; reflexivity.
  - reflexivity.
  - vm_compute; reflexivity.
Defined.


(** ** What the diagram variant shows *)

(** Finds a segment of a concatenation. *)
Ltac find_segment :=
  repeat first [ apply in_str_app_l; exact (in_str_refl _)
               | apply in_str_app_r ].

Section FlowOutputs.
Context {U : UnicodeData} {H : Host}.

(** The diagram variant shows the record it recommends.  The result of
    [recommend_methodology] holds the title, the description and the flow
    chart of the record [get_procurement_advice_with_flow] returns for the
    two inputs, and its status line names that title; the report of
    [analyze_file] holds the three parts of the record recommended for the
    labels it returns. *)
Theorem flow_outputs_show_the_record
  (path industry_input objective_input : str) (w : world)
  (report status industry objective : str) :
  (exists title description flow,
      Platform.get_procurement_advice_with_flow
        industry_input objective_input = (title, description, flow) /\
      snd (PlatformApp.recommend_methodology industry_input objective_input)
      = u "已生成 " ++ title ++ u " 的推荐" /\
      in_str title
        (fst (PlatformApp.recommend_methodology
                industry_input objective_input)) = true /\
      in_str description
        (fst (PlatformApp.recommend_methodology
                industry_input objective_input)) = true /\
      in_str flow
        (fst (PlatformApp.recommend_methodology
                industry_input objective_input)) = true) /\
  (truthy path = true ->
   fst (PlatformApp.analyze_file (Some path)
          industry_input objective_input w)
   = Ok (report, status, industry, objective) ->
   exists title description flow,
     Platform.get_procurement_advice_with_flow industry objective
     = (title, description, flow) /\
     in_str title report = true /\
     in_str description report = true /\
     in_str flow report = true).
Proof.
  split.
  - unfold PlatformApp.recommend_methodology.
    destruct (Platform.get_procurement_advice_with_flow
                industry_input objective_input) as [[t d] f].
    exists t, d, f. cbn [fst snd].
    split; [reflexivity|]. split; [reflexivity|].
    split; [|split]; find_segment.
  - intros Ht Hrun. unfold PlatformApp.analyze_file in Hrun.
    rewrite Ht in Hrun.
    apply bind_inv in Hrun as [size [w1 [_ Hrun]]].
    apply bind_inv in Hrun as [[text ft] [w2 [_ Hrun]]].
    cbv beta iota in Hrun.
    apply bind_inv in Hrun as [[ei eo] [w3 [_ Hrun]]].
    cbv beta iota in Hrun.
    apply bind_inv in Hrun as [[] [w4 [_ Hrun]]].
    cbv zeta in Hrun.
    destruct (Platform.get_procurement_advice_with_flow
                (if truthy ei then ei else industry_input)
                (if truthy eo then eo else objective_input))
      as [[t d] f] eqn:Eadv.
    apply bind_inv in Hrun as [now [w5 [_ Hrun]]].
    apply bind_inv in Hrun as [dp [w6 [_ Hrun]]].
    apply bind_inv in Hrun as [tr [w7 [_ Hrun]]].
    apply bind_inv in Hrun as [c [w8 [_ Hrun]]].
    cbn [ret fst] in Hrun. apply Ok_inj in Hrun.
    apply pair_equal_spec in Hrun as [Hrun <-].
    apply pair_equal_spec in Hrun as [Hrun <-].
    apply pair_equal_spec in Hrun as [<- _].
    exists t, d, f. split; [exact Eadv|].
    split; [|split]; find_segment.
Qed.

End FlowOutputs.

(** [flow_outputs_show_the_record] at the Word document of the example
    host, whose labels lead to the MRP record. *)
Lemma flow_outputs_show_the_record_witness :
  exists report status,
    fst (@PlatformApp.analyze_file basic_latin example_host
           (Some (u "notes/plan.docx")) [] [] (example_world 0))
    = Ok (report, status, u "制造", u "物料计划") /\
    exists title description flow,
      @Platform.get_procurement_advice_with_flow basic_latin
         (u "制造") (u "物料计划") = (title, description, flow) /\
      in_str title report = true /\
      in_str description report = true /\
      in_str flow report = true.
Proof.
  eexists. eexists. split; [vm_compute; reflexivity|].
  eapply (@flow_outputs_show_the_record basic_latin example_host
            (u "notes/plan.docx") [] [] (example_world 0)).
  - reflexivity.
  - vm_compute. reflexivity.
Defined.
